(** * StereoSlamNode: the orchestration layer of the stereo ORB-SLAM3 ROS 2 wrapper

    Shallow embedding of [src/orb_slam3_ros2_wrapper/src/Stereo/stereo-slam-node.cpp].

    The node owns a handle [interface_] on the tracking engine, a few
    configuration members read once in the constructor, and four mutable
    members ([isTracked_], [frequency_tracker_count_],
    [frequency_tracker_clock_], [tfMapOdom_]).  Every callback is embedded
    as a computation in a small state-and-output monad: the state is the
    node together with the clocks it reads, the output is the sequence of
    calls the callback makes on its publishers, on the transform
    broadcaster, on the logger and on [std::cout]. *)

From Stdlib Require Import ZArith List String Bool Lia.
From Stdlib Require Import Floats.PrimFloat Numbers.Cyclic.Int63.Uint63.
Import ListNotations.
Local Open Scope string_scope.
Local Open Scope list_scope.
Local Open Scope Z_scope.

Set Implicit Arguments.

(** ** ROS 2 messages

    [float64] fields are IEEE doubles, [builtin_interfaces/Time] stamps are
    kept as one integer count of nanoseconds. *)

Record Header := {
  stamp : Z;
  frame_id : string
}.

Record Vector3 := { v_x : float; v_y : float; v_z : float }.

Record Point := { p_x : float; p_y : float; p_z : float }.

Record Quaternion := { q_x : float; q_y : float; q_z : float; q_w : float }.

Record Pose := { position : Point; orientation : Quaternion }.

Record PoseStamped := { ps_header : Header; ps_pose : Pose }.

Record Transform := { translation : Vector3; rotation : Quaternion }.

Record TransformStamped := {
  tf_header : Header;
  child_frame_id : string;
  transform : Transform
}.

Record PointField := {
  pf_name : string; pf_offset : Z; pf_datatype : Z; pf_count : Z
}.

Record PointCloud2 := {
  pc_header : Header;
  height : Z;
  width : Z;
  fields : list PointField;
  is_bigendian : bool;
  point_step : Z;
  row_step : Z;
  data : list Byte.byte;
  is_dense : bool
}.

Record Image := {
  img_header : Header;
  img_height : Z;
  img_width : Z;
  img_encoding : string;
  img_is_bigendian : bool;
  img_step : Z;
  img_data : list Byte.byte
}.

(** A default-constructed message: empty frame names, zero stamp, zero
    translation and the identity rotation (the [w] field of
    [geometry_msgs/Quaternion] defaults to 1). *)

Definition Header_default : Header := {| stamp := 0; frame_id := "" |}.

Definition Quaternion_default : Quaternion :=
  {| q_x := 0%float; q_y := 0%float; q_z := 0%float; q_w := 1%float |}.

Definition Vector3_default : Vector3 :=
  {| v_x := 0%float; v_y := 0%float; v_z := 0%float |}.

Definition Point_default : Point :=
  {| p_x := 0%float; p_y := 0%float; p_z := 0%float |}.

Definition TransformStamped_default : TransformStamped :=
  {| tf_header := Header_default;
     child_frame_id := "";
     transform := {| translation := Vector3_default;
                     rotation := Quaternion_default |} |}.

Definition PointCloud2_default : PointCloud2 :=
  {| pc_header := Header_default; height := 0; width := 0; fields := [];
     is_bigendian := false; point_step := 0; row_step := 0; data := [];
     is_dense := false |}.

(** [Eigen::Vector3f]: three single-precision components.  Every single
    is a double, and the conversion done by the assignment
    [landmark.position.x = position.x()] is exact. *)
Record Vector3f := { e_x : float; e_y : float; e_z : float }.

(** Modelled from the spec: [slam_msgs/msg/MapPoint], whose declaration is
    not part of the sources; the public landmark representation is
    "position only". *)
Record MapPoint := { mp_position : Point }.

Definition MapPoint_default : MapPoint := {| mp_position := Point_default |}.

Definition set_position_x (l : MapPoint) (v : float) : MapPoint :=
  {| mp_position := {| p_x := v; p_y := p_y (mp_position l); p_z := p_z (mp_position l) |} |}.
Definition set_position_y (l : MapPoint) (v : float) : MapPoint :=
  {| mp_position := {| p_x := p_x (mp_position l); p_y := v; p_z := p_z (mp_position l) |} |}.
Definition set_position_z (l : MapPoint) (v : float) : MapPoint :=
  {| mp_position := {| p_x := p_x (mp_position l); p_y := p_y (mp_position l); p_z := v |} |}.

(** ** Numeric conversions of the diagnostics *)

(** [static_cast<double>] of a signed 64-bit tick count. *)
Definition double_of_int (z : Z) : float :=
  if z <? 0 then PrimFloat.opp (PrimFloat.of_uint63 (Uint63.of_Z (- z)))
  else PrimFloat.of_uint63 (Uint63.of_Z z).

(** [std::chrono::duration_cast<std::chrono::duration<double>>(d).count()]
    for a nanosecond duration [d]. *)
Definition duration_seconds (ns : Z) : float :=
  PrimFloat.div (double_of_int ns) 1e9%float.

(** [std::chrono::duration<double, std::milli>(d).count()]. *)
Definition duration_millis (ns : Z) : float :=
  PrimFloat.div (double_of_int ns) 1e6%float.

(** [uint32_t] product, as in [cloud.width * cloud.height]. *)
Definition mul_u32 (a b : Z) : Z := (a * b) mod 2 ^ 32.

(** ** The tracking engine

    [ORB_SLAM3_Wrapper::ORBSLAM3Interface] is consumed through a narrow
    contract and its implementation is not part of this file.  The node
    calls it through [interface_]; each method is a function of the
    engine's state, returning the values written through its reference
    parameters and the engine's next state.  The interface object is
    constructed from file names, flags, offsets and frame names only
    (constructor, lines 88-90): it holds no handle on the node's
    publishers or on its transform broadcaster. *)

Class ORBSLAM3Interface := {
  System : Type;
  Imu : Type;
  Odometry : Type;
  MapData : Type;
  MapPointPtr : Type;
  SE3f : Type;
  MapData_default : MapData;
  kFIDforMapPoints_default : list Z;
  SE3f_default : SE3f;
  trackStereo : Image -> Image -> SE3f -> System -> (bool * SE3f) * System;
  handleIMU : Imu -> System -> System;
  getMapToOdomTF : Odometry -> TransformStamped -> System -> TransformStamped * System;
  getDirectMapToRobotTF : Header -> TransformStamped -> System -> TransformStamped * System;
  getCurrentMapPoints : PointCloud2 -> System -> PointCloud2 * System;
  mapDataToMsg : MapData -> bool -> bool -> list Z -> System -> MapData * System;
  mapPointsVisibleFromPose :
    Pose -> list MapPointPtr -> Z -> float -> float -> System -> list MapPointPtr * System;
  GetWorldPos : MapPointPtr -> System -> Vector3f;
  vector3fORBToROS : Vector3f -> Vector3f;
  MapPointsToPCL : list MapPointPtr -> System -> PointCloud2
}.

(** ** Services *)

Section Services.
Context {I : ORBSLAM3Interface}.

(** [slam_msgs/srv/GetMap] *)
Record GetMap_Request := {
  tracked_points : bool;
  kf_id_for_landmarks : list Z
}.
Record GetMap_Response := { gm_data : MapData }.

(** [slam_msgs/srv/GetLandmarksInView] *)
Record GetLandmarksInView_Request := { liv_pose : Pose }.
Record GetLandmarksInView_Response := { map_points : list MapPoint }.
End Services.

(** ** The node *)

Section Node.
Context {I : ORBSLAM3Interface}.

Record StereoSlamNode := {
  (* parameters, read once by the constructor *)
  rosViz_ : bool;
  robot_base_frame_id_ : string;
  global_frame_ : string;
  odom_frame_id_ : string;
  robot_x_ : float;
  robot_y_ : float;
  no_odometry_mode_ : bool;
  publish_tf_ : bool;
  map_data_publish_frequency_ : Z;
  landmark_publish_frequency_ : Z;
  (* mutable members; the counter is an integer incremented once per
     tracked pair and reset by every publishing firing of the map-data
     timer, kept unbounded here (overflow of the C++ counter is outside
     the model); the reference instant is a tick count in nanoseconds *)
  isTracked_ : bool;
  frequency_tracker_count_ : Z;
  frequency_tracker_clock_ : Z;
  tfMapOdom_ : TransformStamped;
  interface_ : System
}.

Definition set_isTracked_ (b : bool) (n : StereoSlamNode) : StereoSlamNode :=
  {| rosViz_ := rosViz_ n; robot_base_frame_id_ := robot_base_frame_id_ n;
     global_frame_ := global_frame_ n; odom_frame_id_ := odom_frame_id_ n;
     robot_x_ := robot_x_ n; robot_y_ := robot_y_ n;
     no_odometry_mode_ := no_odometry_mode_ n; publish_tf_ := publish_tf_ n;
     map_data_publish_frequency_ := map_data_publish_frequency_ n;
     landmark_publish_frequency_ := landmark_publish_frequency_ n;
     isTracked_ := b;
     frequency_tracker_count_ := frequency_tracker_count_ n;
     frequency_tracker_clock_ := frequency_tracker_clock_ n;
     tfMapOdom_ := tfMapOdom_ n;
     interface_ := interface_ n |}.

Definition set_frequency_tracker_count_ (c : Z) (n : StereoSlamNode) : StereoSlamNode :=
  {| rosViz_ := rosViz_ n; robot_base_frame_id_ := robot_base_frame_id_ n;
     global_frame_ := global_frame_ n; odom_frame_id_ := odom_frame_id_ n;
     robot_x_ := robot_x_ n; robot_y_ := robot_y_ n;
     no_odometry_mode_ := no_odometry_mode_ n; publish_tf_ := publish_tf_ n;
     map_data_publish_frequency_ := map_data_publish_frequency_ n;
     landmark_publish_frequency_ := landmark_publish_frequency_ n;
     isTracked_ := isTracked_ n;
     frequency_tracker_count_ := c;
     frequency_tracker_clock_ := frequency_tracker_clock_ n;
     tfMapOdom_ := tfMapOdom_ n;
     interface_ := interface_ n |}.

Definition set_frequency_tracker_clock_ (t : Z) (n : StereoSlamNode) : StereoSlamNode :=
  {| rosViz_ := rosViz_ n; robot_base_frame_id_ := robot_base_frame_id_ n;
     global_frame_ := global_frame_ n; odom_frame_id_ := odom_frame_id_ n;
     robot_x_ := robot_x_ n; robot_y_ := robot_y_ n;
     no_odometry_mode_ := no_odometry_mode_ n; publish_tf_ := publish_tf_ n;
     map_data_publish_frequency_ := map_data_publish_frequency_ n;
     landmark_publish_frequency_ := landmark_publish_frequency_ n;
     isTracked_ := isTracked_ n;
     frequency_tracker_count_ := frequency_tracker_count_ n;
     frequency_tracker_clock_ := t;
     tfMapOdom_ := tfMapOdom_ n;
     interface_ := interface_ n |}.

Definition set_tfMapOdom_ (tf : TransformStamped) (n : StereoSlamNode) : StereoSlamNode :=
  {| rosViz_ := rosViz_ n; robot_base_frame_id_ := robot_base_frame_id_ n;
     global_frame_ := global_frame_ n; odom_frame_id_ := odom_frame_id_ n;
     robot_x_ := robot_x_ n; robot_y_ := robot_y_ n;
     no_odometry_mode_ := no_odometry_mode_ n; publish_tf_ := publish_tf_ n;
     map_data_publish_frequency_ := map_data_publish_frequency_ n;
     landmark_publish_frequency_ := landmark_publish_frequency_ n;
     isTracked_ := isTracked_ n;
     frequency_tracker_count_ := frequency_tracker_count_ n;
     frequency_tracker_clock_ := frequency_tracker_clock_ n;
     tfMapOdom_ := tf;
     interface_ := interface_ n |}.

Definition set_interface_ (s : System) (n : StereoSlamNode) : StereoSlamNode :=
  {| rosViz_ := rosViz_ n; robot_base_frame_id_ := robot_base_frame_id_ n;
     global_frame_ := global_frame_ n; odom_frame_id_ := odom_frame_id_ n;
     robot_x_ := robot_x_ n; robot_y_ := robot_y_ n;
     no_odometry_mode_ := no_odometry_mode_ n; publish_tf_ := publish_tf_ n;
     map_data_publish_frequency_ := map_data_publish_frequency_ n;
     landmark_publish_frequency_ := landmark_publish_frequency_ n;
     isTracked_ := isTracked_ n;
     frequency_tracker_count_ := frequency_tracker_count_ n;
     frequency_tracker_clock_ := frequency_tracker_clock_ n;
     tfMapOdom_ := tfMapOdom_ n;
     interface_ := s |}.

(** *** What a callback can do to the outside *)

Inductive Severity := DEBUG | INFO | WARN.

(** One operand of a [<<] chain. *)
Inductive Item :=
| Str (s : string)
| Num (n : Z)
| Dbl (d : float)
| Endl.

Inductive Output :=
| Log (sev : Severity) (line : list Item)
| LogThrottled (sev : Severity) (at_time : Z) (line : list Item)
| Cout (line : list Item)
| sendTransform (tf : TransformStamped)
| publish_map_data (m : MapData)
| publish_map_points (c : PointCloud2)
| publish_visible_landmarks (c : PointCloud2)
| publish_visible_landmarks_pose (p : PoseStamped)
| respond_GetMap (r : GetMap_Response)
| respond_GetLandmarksInView (r : GetLandmarksInView_Response).

(** *** The world a callback runs in

    [hr_clock] and [ros_clock] give the successive readings of
    [std::chrono::high_resolution_clock::now()] and of the node's clock,
    in nanoseconds; the world counts how many readings were taken.
    [throttle_last_logged] is the function-local static of the throttled
    warning in [OdomCallback]. *)

Record Clocks := {
  hr_clock : nat -> Z;
  ros_clock : nat -> Z
}.

Record World := {
  self : StereoSlamNode;
  hr_reads : nat;
  ros_reads : nat;
  throttle_last_logged : option Z
}.

Record Res (A : Type) := {
  value : A;
  after : World;
  emitted : list Output
}.

Definition M (A : Type) : Type := World -> Res A.

Definition ret {A : Type} (a : A) : M A :=
  fun w => {| value := a; after := w; emitted := [] |}.

Definition bind {A B : Type} (c : M A) (k : A -> M B) : M B :=
  fun w =>
    match c w with
    | {| value := a; after := w1; emitted := out1 |} =>
        match k a w1 with
        | {| value := b; after := w2; emitted := out2 |} =>
            {| value := b; after := w2; emitted := out1 ++ out2 |}
        end
    end.

Definition this : M StereoSlamNode :=
  fun w => {| value := self w; after := w; emitted := [] |}.

Definition modify (f : StereoSlamNode -> StereoSlamNode) : M unit :=
  fun w => {| value := tt;
              after := {| self := f (self w); hr_reads := hr_reads w;
                          ros_reads := ros_reads w;
                          throttle_last_logged := throttle_last_logged w |};
              emitted := [] |}.

Definition emit (o : Output) : M unit :=
  fun w => {| value := tt; after := w; emitted := [o] |}.

(** A call [interface_->f(...)]. *)
Definition call {A : Type} (f : System -> A * System) : M A :=
  fun w =>
    let r := f (interface_ (self w)) in
    {| value := fst r;
       after := {| self := set_interface_ (snd r) (self w); hr_reads := hr_reads w;
                   ros_reads := ros_reads w;
                   throttle_last_logged := throttle_last_logged w |};
       emitted := [] |}.

(** A call of a [const] accessor of the engine. *)
Definition peek {A : Type} (f : System -> A) : M A :=
  fun w => {| value := f (interface_ (self w)); after := w; emitted := [] |}.

Variable clk : Clocks.

(** [std::chrono::high_resolution_clock::now()] *)
Definition high_resolution_clock_now : M Z :=
  fun w => {| value := hr_clock clk (hr_reads w);
              after := {| self := self w; hr_reads := S (hr_reads w);
                          ros_reads := ros_reads w;
                          throttle_last_logged := throttle_last_logged w |};
              emitted := [] |}.

(** [this->now()] *)
Definition now : M Z :=
  fun w => {| value := ros_clock clk (ros_reads w);
              after := {| self := self w; hr_reads := hr_reads w;
                          ros_reads := S (ros_reads w);
                          throttle_last_logged := throttle_last_logged w |};
              emitted := [] |}.

(** Modelled from the spec: the [RCLCPP_WARN_THROTTLE] macro of the
    logging library, which is not part of the sources ("warn at most once
    per 4 seconds").  The macro reads the clock it is given, lets the
    message through when no message went through before or when at least
    [duration_ms] milliseconds passed since the last one that did, and
    remembers the reading of the message it lets through. *)
Definition throttle_open (last : option Z) (t : Z) (duration_ms : Z) : bool :=
  match last with
  | None => true
  | Some l => l + duration_ms * 1000000 <=? t
  end.

Definition RCLCPP_WARN_THROTTLE (duration_ms : Z) (line : list Item) : M unit :=
  fun w =>
    let t := ros_clock clk (ros_reads w) in
    if throttle_open (throttle_last_logged w) t duration_ms then
      {| value := tt;
         after := {| self := self w; hr_reads := hr_reads w;
                     ros_reads := S (ros_reads w);
                     throttle_last_logged := Some t |};
         emitted := [LogThrottled WARN t line] |}
    else
      {| value := tt;
         after := {| self := self w; hr_reads := hr_reads w;
                     ros_reads := S (ros_reads w);
                     throttle_last_logged := throttle_last_logged w |};
         emitted := [] |}.

Notation "x <- c ;; k" := (bind c (fun x => k))
  (at level 61, c at next level, right associativity).
Notation "c ;; k" := (bind c (fun _ => k))
  (at level 61, right associativity).

(** *** Sensor callbacks *)

Definition ImuCallback (msgIMU : Imu) : M unit :=
  emit (Log DEBUG [Str "ImuCallback"]) ;;
  call (fun s => (tt, handleIMU msgIMU s)).

Definition OdomCallback (msgOdom : Odometry) : M unit :=
  n <- this ;;
  if negb (no_odometry_mode_ n) && publish_tf_ n then
    emit (Log DEBUG [Str "OdomCallback"]) ;;
    tf <- call (getMapToOdomTF msgOdom (tfMapOdom_ n)) ;;
    modify (set_tfMapOdom_ tf)
  else
    RCLCPP_WARN_THROTTLE 4000
      [Str "Odometry msg recorded but no odometry mode is true, set to false to use this odometry"].

Definition StereoCallback (msgLeft msgRight : Image) : M unit :=
  let Tcw := SE3f_default in
  emit (Log INFO [Str "StereoCallback"]) ;;
  emit (Cout [Str "StereoCallback"; Endl]) ;;
  r <- call (trackStereo msgLeft msgRight Tcw) ;;
  if fst r then
    emit (Log INFO [Str "Tracked!"]) ;;
    emit (Cout [Str "Tracked!"; Endl]) ;;
    modify (set_isTracked_ true) ;;
    n <- this ;;
    (if publish_tf_ n then
       (if no_odometry_mode_ n then
          tf <- call (getDirectMapToRobotTF (img_header msgLeft) (tfMapOdom_ n)) ;;
          modify (set_tfMapOdom_ tf)
        else ret tt) ;;
       n <- this ;;
       emit (sendTransform (tfMapOdom_ n))
     else ret tt) ;;
    n <- this ;;
    modify (set_frequency_tracker_count_ (frequency_tracker_count_ n + 1))
  else ret tt.

(** *** Periodic publishers *)

Definition publishMapPointCloud : M unit :=
  emit (Log INFO [Str "publishMapPointCloud"]) ;;
  emit (Cout [Str "publishMapPointCloud"; Endl]) ;;
  n <- this ;;
  if isTracked_ n then
    emit (Cout [Str "publishMapPointCloudrunning"; Endl]) ;;
    start <- high_resolution_clock_now ;;
    let mapPCL := PointCloud2_default in
    t1 <- high_resolution_clock_now ;;
    let time_create_mapPCL := duration_millis (t1 - start) in
    emit (Log DEBUG [Str "Time to create mapPCL object: "; Dbl time_create_mapPCL;
                     Str " seconds"]) ;;
    mapPCL <- call (getCurrentMapPoints mapPCL) ;;
    if Z.of_nat (List.length (data mapPCL)) =? 0 then
      emit (Log DEBUG [Str "mapPCL.data.size() == 0"]) ;;
      emit (Cout [Str "mapPCL.data.size() == 0"; Endl])
      (* return *)
    else
      emit (Cout [Str "mapPCL.data.size() == "; Num (Z.of_nat (List.length (data mapPCL))); Endl]) ;;
      t2 <- high_resolution_clock_now ;;
      let time_get_map_points := duration_seconds (t2 - t1) in
      emit (Log DEBUG [Str "Time to get current map points: "; Dbl time_get_map_points;
                       Str " seconds"]) ;;
      emit (publish_map_points mapPCL) ;;
      t3 <- high_resolution_clock_now ;;
      let time_publish_map_points := duration_seconds (t3 - t2) in
      emit (Log DEBUG [Str "Time to publish map points: "; Dbl time_publish_map_points;
                       Str " seconds"]) ;;
      emit (Log DEBUG [Str "======================="])
  else ret tt.

(** The operands of the [<<] chains are evaluated as written, the logger
    being taken at a level that renders the line: the tracking-frequency
    line reads the clock once more than the statements around it. *)
Definition publishMapData : M unit :=
  emit (Log DEBUG [Str "publishMapData"]) ;;
  emit (Cout [Str "publishMapData"; Endl]) ;;
  n <- this ;;
  if isTracked_ n then
    emit (Cout [Str "publishMapDatarunning"; Endl]) ;;
    start <- high_resolution_clock_now ;;
    emit (Log DEBUG [Str "Publishing map data"]) ;;
    t <- high_resolution_clock_now ;;
    emit (Log INFO [Str "Current ORB-SLAM3 tracking frequency: ";
                    Dbl (PrimFloat.div (double_of_int (frequency_tracker_count_ n))
                           (duration_seconds (t - frequency_tracker_clock_ n)));
                    Str " frames / sec"]) ;;
    t <- high_resolution_clock_now ;;
    modify (set_frequency_tracker_clock_ t) ;;
    modify (set_frequency_tracker_count_ 0) ;;
    let mapDataMsg := MapData_default in
    mapDataMsg <- call (mapDataToMsg mapDataMsg true false kFIDforMapPoints_default) ;;
    emit (publish_map_data mapDataMsg) ;;
    t1 <- high_resolution_clock_now ;;
    let time_publishMapData := duration_seconds (t1 - start) in
    emit (Log DEBUG [Str "Time to create mapdata: "; Dbl time_publishMapData;
                     Str " seconds"]) ;;
    emit (Log INFO [Str "*************************"])
  else ret tt.

(** *** Services *)

Definition getMapServer (request : GetMap_Request) (response : GetMap_Response)
  : M GetMap_Response :=
  emit (Log INFO [Str "GetMap2 service called."]) ;;
  let mapDataMsg := MapData_default in
  mapDataMsg <- call (mapDataToMsg mapDataMsg false (tracked_points request)
                        (kf_id_for_landmarks request)) ;;
  ret {| gm_data := mapDataMsg |}.

(** The body of the range-[for] over [points]: one landmark appended
    per map point. *)
Definition push_landmark (landmarks : list MapPoint) (point : MapPointPtr)
  : M (list MapPoint) :=
  let landmark := MapPoint_default in
  landmark_position <- peek (GetWorldPos point) ;;
  let position := vector3fORBToROS landmark_position in
  let landmark := set_position_x landmark (e_x position) in
  let landmark := set_position_y landmark (e_y position) in
  let landmark := set_position_z landmark (e_z position) in
  ret (landmarks ++ [landmark]).

Fixpoint for_each {A B : Type} (body : B -> A -> M B) (l : list A) (acc : B) : M B :=
  match l with
  | [] => ret acc
  | a :: l' => acc' <- body acc a ;; for_each body l' acc'
  end.

Definition getMapPointsInViewServer (request : GetLandmarksInView_Request)
    (response : GetLandmarksInView_Response) : M GetLandmarksInView_Response :=
  emit (Log INFO [Str "GetMapPointsInView service called."]) ;;
  emit (Cout [Str "GetMapPointsInView service called."; Endl]) ;;
  let landmarks := [] in
  let points := [] in
  points <- call (mapPointsVisibleFromPose (liv_pose request) points 1000 5%float 2%float) ;;
  landmarks <- for_each push_landmark points landmarks ;;
  let response := {| map_points := landmarks |} in
  cloud <- peek (MapPointsToPCL points) ;;
  emit (Cout [Str "Cloud size: "; Num (mul_u32 (width cloud) (height cloud)); Endl]) ;;
  emit (publish_visible_landmarks cloud) ;;
  stamp_now <- now ;;
  let pose_stamped :=
    {| ps_header := {| stamp := stamp_now; frame_id := "map" |};
       ps_pose := liv_pose request |} in
  emit (publish_visible_landmarks_pose pose_stamped) ;;
  ret response.

(** *** The executor

    Each arrival (a synchronized stereo pair, a sensor sample, a timer
    firing, a service request) runs one callback.  The landmark timer
    exists only when [rosViz_] is set (constructor, lines 82-86). *)

Inductive Event :=
| StereoPair (msgLeft msgRight : Image)
| ImuSample (msgIMU : Imu)
| OdomSample (msgOdom : Odometry)
| MapDataTimer
| MapPointsTimer
| GetMapCall (request : GetMap_Request) (response : GetMap_Response)
| GetLandmarksInViewCall (request : GetLandmarksInView_Request)
    (response : GetLandmarksInView_Response).

Definition dispatch (ev : Event) : M unit :=
  match ev with
  | StereoPair l r => StereoCallback l r
  | ImuSample m => ImuCallback m
  | OdomSample m => OdomCallback m
  | MapDataTimer => publishMapData
  | MapPointsTimer =>
      n <- this ;;
      if rosViz_ n then publishMapPointCloud else ret tt
  | GetMapCall rq rs =>
      r <- getMapServer rq rs ;; emit (respond_GetMap r)
  | GetLandmarksInViewCall rq rs =>
      r <- getMapPointsInViewServer rq rs ;; emit (respond_GetLandmarksInView r)
  end.

Fixpoint run (evs : list Event) : M unit :=
  match evs with
  | [] => ret tt
  | ev :: evs' => dispatch ev ;; run evs'
  end.

(** *** The constructor

    Only the members the callbacks read are kept.  The counter and the
    reference instant are set on lines 92-93.

    Modelled from the spec: the member initialisers of
    [stereo-slam-node.hpp], which is not part of the sources: the
    tracking flag starts false ("no tracking call has yet succeeded") and
    the cached transform is default-constructed. *)

Record Parameters := {
  ros_visualization : bool;
  robot_base_frame : string;
  global_frame : string;
  odom_frame : string;
  robot_x : float;
  robot_y : float;
  no_odometry_mode : bool;
  publish_tf : bool;
  map_data_publish_frequency : Z;
  landmark_publish_frequency : Z
}.

Definition Parameters_default : Parameters :=
  {| ros_visualization := true;
     robot_base_frame := "base_link";
     global_frame := "map";
     odom_frame := "odom";
     robot_x := 1%float;
     robot_y := 1%float;
     no_odometry_mode := true;
     publish_tf := true;
     map_data_publish_frequency := 1000;
     landmark_publish_frequency := 1000 |}.

Definition constructor (p : Parameters) (engine : System) : Res unit :=
  {| value := tt;
     after :=
       {| self :=
            {| rosViz_ := ros_visualization p;
               robot_base_frame_id_ := robot_base_frame p;
               global_frame_ := global_frame p;
               odom_frame_id_ := odom_frame p;
               robot_x_ := robot_x p;
               robot_y_ := robot_y p;
               no_odometry_mode_ := no_odometry_mode p;
               publish_tf_ := publish_tf p;
               map_data_publish_frequency_ := map_data_publish_frequency p;
               landmark_publish_frequency_ := landmark_publish_frequency p;
               isTracked_ := false;
               frequency_tracker_count_ := 0;
               frequency_tracker_clock_ := hr_clock clk 0;
               tfMapOdom_ := TransformStamped_default;
               interface_ := engine |};
          hr_reads := 1;
          ros_reads := 0;
          throttle_last_logged := None |};
     emitted := [Log INFO [Str "CONSTRUCTOR END!"]] |}.

End Node.

(** ** Reading a trace *)

Section Traces.
Context {I : ORBSLAM3Interface}.

(** The transforms handed to [tfBroadcaster_->sendTransform], in order. *)
Fixpoint broadcasts (out : list Output) : list TransformStamped :=
  match out with
  | [] => []
  | sendTransform tf :: out' => tf :: broadcasts out'
  | _ :: out' => broadcasts out'
  end.

(** A call of [publish] on one of the four publishers. *)
Definition is_publication (o : Output) : bool :=
  match o with
  | publish_map_data _ | publish_map_points _
  | publish_visible_landmarks _ | publish_visible_landmarks_pose _ => true
  | _ => false
  end.

Definition publications (out : list Output) : list Output :=
  filter is_publication out.

(** The outputs the tracking flag stands in front of: the two periodic
    publications and the transform broadcast. *)
Definition is_gated (o : Output) : bool :=
  match o with
  | publish_map_data _ | publish_map_points _ | sendTransform _ => true
  | _ => false
  end.

Definition gated (out : list Output) : list Output := filter is_gated out.

(** The clock readings at which a throttled warning went through. *)
Fixpoint warn_stamps (out : list Output) : list Z :=
  match out with
  | [] => []
  | LogThrottled WARN t _ :: out' => t :: warn_stamps out'
  | _ :: out' => warn_stamps out'
  end.

(** Successive stamps are at least [duration_ms] milliseconds apart,
    the first one counted from [last]. *)
Fixpoint spaced (duration_ms : Z) (last : option Z) (ts : list Z) : Prop :=
  match ts with
  | [] => True
  | t :: ts' =>
      match last with
      | None => True
      | Some l => l + duration_ms * 1000000 <= t
      end /\ spaced duration_ms (Some t) ts'
  end.

(** How many times the success branch of [StereoCallback] was entered:
    it is the only place that logs this line. *)
Definition is_tracked_line (o : Output) : bool :=
  match o with
  | Log INFO [Str s] => String.eqb s "Tracked!"
  | _ => false
  end.

Definition tracked_count (out : list Output) : Z :=
  Z.of_nat (List.length (filter is_tracked_line out)).

(** The values streamed into the tracking-frequency line. *)
Fixpoint frequency_lines (out : list Output) : list float :=
  match out with
  | [] => []
  | Log INFO [Str s; Dbl d; Str _] :: out' =>
      if String.eqb s "Current ORB-SLAM3 tracking frequency: "
      then d :: frequency_lines out' else frequency_lines out'
  | _ :: out' => frequency_lines out'
  end.

Definition is_OdomSample (ev : Event) : bool :=
  match ev with OdomSample _ => true | _ => false end.

Definition is_MapDataTimer (ev : Event) : bool :=
  match ev with MapDataTimer => true | _ => false end.

(** What the engine answers to the next stereo pair. *)
Definition tracks (msgLeft msgRight : Image) (w : World) : bool :=
  fst (fst (trackStereo msgLeft msgRight SE3f_default (interface_ (self w)))).

(** The landmark built by one iteration of the loop of
    [getMapPointsInViewServer]. *)
Definition landmark_at (s : System) (point : MapPointPtr) : MapPoint :=
  let position := vector3fORBToROS (GetWorldPos point s) in
  {| mp_position := {| p_x := e_x position; p_y := e_y position; p_z := e_z position |} |}.

Definition with_self (n : StereoSlamNode) (w : World) : World :=
  {| self := n; hr_reads := hr_reads w; ros_reads := ros_reads w;
     throttle_last_logged := throttle_last_logged w |}.

(** The success branch of [StereoCallback]: the node after it and what
    it sent out. *)
Definition tracked_node (msgLeft msgRight : Image) (n : StereoSlamNode) : StereoSlamNode :=
  let s1 := snd (trackStereo msgLeft msgRight SE3f_default (interface_ n)) in
  let n1 := set_isTracked_ true (set_interface_ s1 n) in
  let n2 :=
    if publish_tf_ n && no_odometry_mode_ n then
      let q := getDirectMapToRobotTF (img_header msgLeft) (tfMapOdom_ n) s1 in
      set_tfMapOdom_ (fst q) (set_interface_ (snd q) n1)
    else n1 in
  set_frequency_tracker_count_ (frequency_tracker_count_ n + 1) n2.

(** The parameters are never written after the constructor. *)
Definition same_parameters (n n' : StereoSlamNode) : Prop :=
  rosViz_ n' = rosViz_ n /\
  global_frame_ n' = global_frame_ n /\
  no_odometry_mode_ n' = no_odometry_mode_ n /\
  publish_tf_ n' = publish_tf_ n.

Definition no_OdomSample (evs : list Event) : bool :=
  forallb (fun ev => negb (is_OdomSample ev)) evs.

Definition no_MapDataTimer (evs : list Event) : bool :=
  forallb (fun ev => negb (is_MapDataTimer ev)) evs.

(** The window of a throttled message has passed at [t]. *)
Definition window_passed (duration_ms : Z) (last : option Z) (t : Z) : Prop :=
  match last with
  | None => True
  | Some l => l + duration_ms * 1000000 <= t
  end.
(** *** Counting along a run *)

Definition is_StereoPair (ev : Event) : bool :=
  match ev with StereoPair _ _ => true | _ => false end.

Definition no_StereoPair (evs : list Event) : bool :=
  forallb (fun ev => negb (is_StereoPair ev)) evs.

Definition is_MapPointsTimer (ev : Event) : bool :=
  match ev with MapPointsTimer => true | _ => false end.

Definition is_GetLandmarksInViewCall (ev : Event) : bool :=
  match ev with GetLandmarksInViewCall _ _ => true | _ => false end.

Definition count_events (f : Event -> bool) (evs : list Event) : nat :=
  List.length (filter f evs).

Definition is_map_data (o : Output) : bool :=
  match o with publish_map_data _ => true | _ => false end.

Definition is_map_points (o : Output) : bool :=
  match o with publish_map_points _ => true | _ => false end.

Definition is_visible_landmarks (o : Output) : bool :=
  match o with publish_visible_landmarks _ => true | _ => false end.

Definition is_visible_landmarks_pose (o : Output) : bool :=
  match o with publish_visible_landmarks_pose _ => true | _ => false end.

Definition count_outputs (f : Output -> bool) (out : list Output) : nat :=
  List.length (filter f out).

(** The counter read back from what the node sent out: a map-data
    publication marks a reset, a tracked pair an increment. *)
Definition replay_step (c : Z) (o : Output) : Z :=
  if is_map_data o then 0 else if is_tracked_line o then c + 1 else c.

Definition replay_counter (c : Z) (out : list Output) : Z :=
  fold_left replay_step out c.

(** The engine after it was handed the samples, or the pairs, one by one
    in the order given. *)
Definition forward_all (msgs : list Imu) (s : System) : System :=
  fold_left (fun s' m => handleIMU m s') msgs s.

Definition track_all (pairs : list (Image * Image)) (s : System) : System :=
  fold_left (fun s' p => snd (trackStereo (fst p) (snd p) SE3f_default s')) pairs s.

Definition stereo_pairs (pairs : list (Image * Image)) : list Event :=
  map (fun p => StereoPair (fst p) (snd p)) pairs.
End Traces.

Arguments tracked_node : simpl never.

(** ** A scripted engine

    A small engine to run the node against: its map is the list of
    landmark positions.  A stereo pair is tracked when the left image is not
    empty, and every tracked pair adds one landmark per image row.  The
    point cloud has one byte per landmark. *)

Definition scripted_landmark : Vector3f :=
  {| e_x := 1%float; e_y := 2%float; e_z := 3%float |}.

Definition scripted_trackStereo (l r : Image) (Tcw : unit) (s : list Vector3f)
  : (bool * unit) * list Vector3f :=
  if 0 <? img_width l
  then ((true, Tcw), repeat scripted_landmark (Z.to_nat (img_height l)) ++ s)
  else ((false, Tcw), s).

Definition scripted_cloud (n : nat) (pcl : PointCloud2) : PointCloud2 :=
  {| pc_header := pc_header pcl; height := 1; width := Z.of_nat n;
     fields := fields pcl; is_bigendian := false; point_step := 1;
     row_step := Z.of_nat n; data := repeat Byte.x00 n; is_dense := true |}.

Definition scripted_tf (h : Header) (child : string) (tf : TransformStamped)
  : TransformStamped :=
  {| tf_header := h; child_frame_id := child; transform := transform tf |}.

Definition scripted_engine : ORBSLAM3Interface := {|
  System := list Vector3f;
  Imu := Header;
  Odometry := Header;
  MapData := (bool * bool * list Z * nat)%type;
  MapPointPtr := nat;
  SE3f := unit;
  MapData_default := (false, false, [], 0%nat);
  kFIDforMapPoints_default := [];
  SE3f_default := tt;
  trackStereo := scripted_trackStereo;
  handleIMU := fun _ s => s;
  getMapToOdomTF := fun odom tf s => (scripted_tf odom "odom" tf, s);
  getDirectMapToRobotTF := fun h tf s => (scripted_tf h "base_link" tf, s);
  getCurrentMapPoints := fun pcl s => (scripted_cloud (List.length s) pcl, s);
  mapDataToMsg := fun _ kfOnly pts ids s => ((kfOnly, pts, ids, List.length s), s);
  mapPointsVisibleFromPose := fun _ _ maxN _ _ s =>
    (firstn (Z.to_nat maxN) (seq 0 (List.length s)), s);
  GetWorldPos := fun p s => nth p s scripted_landmark;
  vector3fORBToROS := fun v =>
    {| e_x := e_z v; e_y := PrimFloat.opp (e_x v); e_z := PrimFloat.opp (e_y v) |};
  MapPointsToPCL := fun pts _ => scripted_cloud (List.length pts) PointCloud2_default
|}.

(** A clock that advances one millisecond per reading. *)
Definition scripted_clocks : Clocks :=
  {| hr_clock := fun n => Z.of_nat n * 1000000;
     ros_clock := fun n => Z.of_nat n * 1000000 |}.

Definition scripted_image (w h : Z) : Image :=
  {| img_header := {| stamp := 7; frame_id := "camera" |};
     img_height := h; img_width := w; img_encoding := "mono8";
     img_is_bigendian := false; img_step := w; img_data := [] |}.

(** The node as the constructor leaves it, in composed mode. *)
Definition composed_parameters : Parameters :=
  {| ros_visualization := true;
     robot_base_frame := "base_link";
     global_frame := "world";
     odom_frame := "odom";
     robot_x := 1%float;
     robot_y := 1%float;
     no_odometry_mode := false;
     publish_tf := true;
     map_data_publish_frequency := 1000;
     landmark_publish_frequency := 1000 |}.

Definition scripted_start (p : Parameters) : World :=
  after (constructor (I := scripted_engine) scripted_clocks p []).

Definition scripted_odom : Header := {| stamp := 5; frame_id := "odom" |}.

(** Tracked, and two landmarks added to the map. *)
Definition pair_tracked : Image := scripted_image 4 2.

(** Tracked, but the map gains no landmark. *)
Definition pair_tracked_no_landmark : Image := scripted_image 4 0.

(** Not tracked. *)
Definition pair_lost : Image := scripted_image 0 0.

Definition composed_start : World := scripted_start composed_parameters.

Definition direct_start : World := scripted_start Parameters_default.

Definition scripted_request : GetLandmarksInView_Request :=
  {| liv_pose := {| position := Point_default; orientation := Quaternion_default |} |}.

(** A clock that advances three seconds per reading. *)
Definition slow_clocks : Clocks :=
  {| hr_clock := fun n => Z.of_nat n * 3000000000;
     ros_clock := fun n => Z.of_nat n * 3000000000 |}.

Definition odom_burst : list Event :=
  [@OdomSample scripted_engine scripted_odom; @OdomSample scripted_engine scripted_odom;
   @OdomSample scripted_engine scripted_odom; @OdomSample scripted_engine scripted_odom].

(** Direct mode with transform publication and ROS visualization off. *)
Definition silent_parameters : Parameters :=
  {| ros_visualization := false;
     robot_base_frame := "base_link";
     global_frame := "map";
     odom_frame := "odom";
     robot_x := 1%float;
     robot_y := 1%float;
     no_odometry_mode := true;
     publish_tf := false;
     map_data_publish_frequency := 1000;
     landmark_publish_frequency := 1000 |}.

Definition silent_start : World := scripted_start silent_parameters.

(** A run with every kind of arrival in it; two of its three pairs are
    tracked. *)
Definition busy_run : list Event :=
  [@StereoPair scripted_engine pair_tracked pair_tracked;
   @OdomSample scripted_engine scripted_odom;
   @MapDataTimer scripted_engine;
   @MapPointsTimer scripted_engine;
   @StereoPair scripted_engine pair_lost pair_lost;
   @ImuSample scripted_engine scripted_odom;
   @StereoPair scripted_engine pair_tracked pair_tracked;
   @GetLandmarksInViewCall scripted_engine scripted_request {| map_points := [] |}].

(** A run without odometry samples, and a run without stereo pairs. *)
Definition run_without_odometry : list Event :=
  [@StereoPair scripted_engine pair_tracked pair_tracked;
   @MapDataTimer scripted_engine;
   @ImuSample scripted_engine scripted_odom].

Definition run_without_pairs : list Event :=
  [@OdomSample scripted_engine scripted_odom;
   @MapDataTimer scripted_engine;
   @GetLandmarksInViewCall scripted_engine scripted_request {| map_points := [] |}].

(** A run from construction up to, but not including, the first map-data
    publication: the first firing of the map-data timer finds the flag
    still false. *)
Definition run_before_first_publication : list Event :=
  [@MapDataTimer scripted_engine;
   @StereoPair scripted_engine pair_tracked pair_tracked;
   @StereoPair scripted_engine pair_tracked pair_tracked;
   @MapPointsTimer scripted_engine].

Definition three_pairs : list (Image * Image) :=
  [(pair_tracked, pair_tracked); (pair_lost, pair_lost); (pair_tracked, pair_tracked)].

(** ** Properties *)

Ltac unfold_monad :=
  cbv [bind ret emit this modify call peek high_resolution_clock_now now
       RCLCPP_WARN_THROTTLE app].

Section TraceLemmas.
Context {I : ORBSLAM3Interface}.

Lemma broadcasts_app (a b : list Output) :
  broadcasts (a ++ b) = broadcasts a ++ broadcasts b.
Proof.
  induction a as [|o a IH]; cbn; [reflexivity|].
  destruct o; cbn; rewrite IH; reflexivity.
Qed.

Lemma warn_stamps_app (a b : list Output) :
  warn_stamps (a ++ b) = warn_stamps a ++ warn_stamps b.
Proof.
  induction a as [|o a IH]; cbn; [reflexivity|].
  destruct o as [| [] | | | | | | | |]; cbn; rewrite IH; reflexivity.
Qed.

Lemma gated_app (a b : list Output) : gated (a ++ b) = gated a ++ gated b.
Proof. apply filter_app. Qed.

Lemma publications_app (a b : list Output) :
  publications (a ++ b) = publications a ++ publications b.
Proof. apply filter_app. Qed.

Lemma tracked_count_app (a b : list Output) :
  tracked_count (a ++ b) = tracked_count a + tracked_count b.
Proof.
  unfold tracked_count. rewrite filter_app, length_app. lia.
Qed.

End TraceLemmas.

Section StepLemmas.
Context {I : ORBSLAM3Interface}.
Variable clk : Clocks.

(** A pair the engine does not track leaves every member but
    [interface_] as it was. *)
Lemma StereoCallback_untracked (msgLeft msgRight : Image) (w : World) :
  tracks msgLeft msgRight w = false ->
  StereoCallback msgLeft msgRight w =
    {| value := tt;
       after := with_self
                  (set_interface_
                     (snd (trackStereo msgLeft msgRight SE3f_default (interface_ (self w))))
                     (self w)) w;
       emitted := [Log INFO [Str "StereoCallback"]; Cout [Str "StereoCallback"; Endl]] |}.
Proof.
  unfold tracks, StereoCallback. intros H. unfold_monad. rewrite H. reflexivity.
Qed.
(** The loop of [getMapPointsInViewServer] touches neither the node nor
    the outside: it appends one landmark per point. *)
Lemma for_each_push_landmark (points : list MapPointPtr) (acc : list MapPoint) (w : World) :
  for_each push_landmark points acc w =
    {| value := acc ++ map (landmark_at (interface_ (self w))) points;
       after := w; emitted := [] |}.
Proof.
  revert acc. induction points as [|p points IH]; intros acc; cbn.
  - unfold ret. rewrite app_nil_r. reflexivity.
  - rewrite IH. rewrite <- app_assoc. reflexivity.
Qed.

Lemma getMapPointsInViewServer_eq (request : GetLandmarksInView_Request)
    (response : GetLandmarksInView_Response) (w : World) :
  let q := mapPointsVisibleFromPose (liv_pose request) [] 1000 5%float 2%float
             (interface_ (self w)) in
  let cloud := MapPointsToPCL (fst q) (snd q) in
  getMapPointsInViewServer clk request response w =
    {| value := {| map_points := map (landmark_at (snd q)) (fst q) |};
       after := {| self := set_interface_ (snd q) (self w);
                   hr_reads := hr_reads w;
                   ros_reads := S (ros_reads w);
                   throttle_last_logged := throttle_last_logged w |};
       emitted :=
         [Log INFO [Str "GetMapPointsInView service called."];
          Cout [Str "GetMapPointsInView service called."; Endl];
          Cout [Str "Cloud size: "; Num (mul_u32 (width cloud) (height cloud)); Endl];
          publish_visible_landmarks cloud;
          publish_visible_landmarks_pose
            {| ps_header := {| stamp := ros_clock clk (ros_reads w); frame_id := "map" |};
               ps_pose := liv_pose request |}] |}.
Proof.
  cbv zeta. unfold getMapPointsInViewServer.
  unfold bind at 1 2 3 4. unfold emit at 1 2. unfold call at 1.
  rewrite for_each_push_landmark. reflexivity.
Qed.

Lemma getMapServer_eq (request : GetMap_Request) (response : GetMap_Response) (w : World) :
  let q := mapDataToMsg MapData_default false (tracked_points request)
             (kf_id_for_landmarks request) (interface_ (self w)) in
  getMapServer request response w =
    {| value := {| gm_data := fst q |};
       after := with_self (set_interface_ (snd q) (self w)) w;
       emitted := [Log INFO [Str "GetMap2 service called."]] |}.
Proof. reflexivity. Qed.

(** The three ways [OdomCallback] can go. *)
Lemma OdomCallback_composed (msgOdom : Odometry) (w : World) :
  no_odometry_mode_ (self w) = false -> publish_tf_ (self w) = true ->
  let q := getMapToOdomTF msgOdom (tfMapOdom_ (self w)) (interface_ (self w)) in
  OdomCallback clk msgOdom w =
    {| value := tt;
       after := with_self (set_tfMapOdom_ (fst q) (set_interface_ (snd q) (self w))) w;
       emitted := [Log DEBUG [Str "OdomCallback"]] |}.
Proof.
  intros H1 H2. unfold OdomCallback. unfold_monad. rewrite H1, H2. reflexivity.
Qed.

Lemma OdomCallback_discard (msgOdom : Odometry) (w : World) :
  no_odometry_mode_ (self w) || negb (publish_tf_ (self w)) = true ->
  OdomCallback clk msgOdom w =
    RCLCPP_WARN_THROTTLE clk 4000
      [Str "Odometry msg recorded but no odometry mode is true, set to false to use this odometry"]
      w.
Proof.
  intros H. unfold OdomCallback. unfold bind, this. cbn.
  destruct (no_odometry_mode_ (self w)), (publish_tf_ (self w)); cbn in *;
    try discriminate; destruct (RCLCPP_WARN_THROTTLE _ _ _ _); reflexivity.
Qed.

(** The success branch of [StereoCallback]. *)
Lemma StereoCallback_tracked (msgLeft msgRight : Image) (w : World) :
  tracks msgLeft msgRight w = true ->
  StereoCallback msgLeft msgRight w =
    {| value := tt;
       after := with_self (tracked_node msgLeft msgRight (self w)) w;
       emitted :=
         [Log INFO [Str "StereoCallback"]; Cout [Str "StereoCallback"; Endl];
          Log INFO [Str "Tracked!"]; Cout [Str "Tracked!"; Endl]]
         ++ (if publish_tf_ (self w)
             then [sendTransform (tfMapOdom_ (tracked_node msgLeft msgRight (self w)))]
             else []) |}.
Proof.
  unfold tracks, StereoCallback, tracked_node. intros H. unfold_monad. rewrite H. cbn.
  destruct (publish_tf_ (self w)), (no_odometry_mode_ (self w)); reflexivity.
Qed.

Lemma publishMapData_idle (w : World) :
  isTracked_ (self w) = false ->
  publishMapData clk w =
    {| value := tt; after := w;
       emitted := [Log DEBUG [Str "publishMapData"]; Cout [Str "publishMapData"; Endl]] |}.
Proof.
  intros H. unfold publishMapData. unfold_monad. rewrite H. reflexivity.
Qed.

Lemma publishMapPointCloud_idle (w : World) :
  isTracked_ (self w) = false ->
  publishMapPointCloud clk w =
    {| value := tt; after := w;
       emitted := [Log INFO [Str "publishMapPointCloud"];
                   Cout [Str "publishMapPointCloud"; Endl]] |}.
Proof.
  intros H. unfold publishMapPointCloud. unfold_monad. rewrite H. reflexivity.
Qed.

Lemma publishMapData_firing (w : World) :
  isTracked_ (self w) = true ->
  let n := self w in
  let start := hr_clock clk (hr_reads w) in
  let t_log := hr_clock clk (S (hr_reads w)) in
  let t_reset := hr_clock clk (S (S (hr_reads w))) in
  let t1 := hr_clock clk (S (S (S (hr_reads w)))) in
  let q := mapDataToMsg MapData_default true false kFIDforMapPoints_default (interface_ n) in
  publishMapData clk w =
    {| value := tt;
       after := {| self := set_interface_ (snd q)
                             (set_frequency_tracker_count_ 0
                                (set_frequency_tracker_clock_ t_reset n));
                   hr_reads := S (S (S (S (hr_reads w))));
                   ros_reads := ros_reads w;
                   throttle_last_logged := throttle_last_logged w |};
       emitted :=
         [Log DEBUG [Str "publishMapData"]; Cout [Str "publishMapData"; Endl];
          Cout [Str "publishMapDatarunning"; Endl];
          Log DEBUG [Str "Publishing map data"];
          Log INFO [Str "Current ORB-SLAM3 tracking frequency: ";
                    Dbl (PrimFloat.div (double_of_int (frequency_tracker_count_ n))
                           (duration_seconds (t_log - frequency_tracker_clock_ n)));
                    Str " frames / sec"];
          publish_map_data (fst q);
          Log DEBUG [Str "Time to create mapdata: "; Dbl (duration_seconds (t1 - start));
                     Str " seconds"];
          Log INFO [Str "*************************"]] |}.
Proof.
  intros H. cbv zeta. unfold publishMapData. unfold_monad. rewrite H. reflexivity.
Qed.

Lemma publishMapPointCloud_firing (w : World) :
  isTracked_ (self w) = true ->
  let q := getCurrentMapPoints PointCloud2_default (interface_ (self w)) in
  let mapPCL := fst q in
  let start := hr_clock clk (hr_reads w) in
  let t1 := hr_clock clk (S (hr_reads w)) in
  let t2 := hr_clock clk (S (S (hr_reads w))) in
  let t3 := hr_clock clk (S (S (S (hr_reads w)))) in
  let head :=
    [Log INFO [Str "publishMapPointCloud"]; Cout [Str "publishMapPointCloud"; Endl];
     Cout [Str "publishMapPointCloudrunning"; Endl];
     Log DEBUG [Str "Time to create mapPCL object: "; Dbl (duration_millis (t1 - start));
                Str " seconds"]] in
  publishMapPointCloud clk w =
    match data mapPCL with
    | [] =>
        {| value := tt;
           after := {| self := set_interface_ (snd q) (self w);
                       hr_reads := S (S (hr_reads w));
                       ros_reads := ros_reads w;
                       throttle_last_logged := throttle_last_logged w |};
           emitted := head ++
             [Log DEBUG [Str "mapPCL.data.size() == 0"];
              Cout [Str "mapPCL.data.size() == 0"; Endl]] |}
    | _ :: _ =>
        {| value := tt;
           after := {| self := set_interface_ (snd q) (self w);
                       hr_reads := S (S (S (S (hr_reads w))));
                       ros_reads := ros_reads w;
                       throttle_last_logged := throttle_last_logged w |};
           emitted := head ++
             [Cout [Str "mapPCL.data.size() == "; Num (Z.of_nat (List.length (data mapPCL)));
                    Endl];
              Log DEBUG [Str "Time to get current map points: ";
                         Dbl (duration_seconds (t2 - t1)); Str " seconds"];
              publish_map_points mapPCL;
              Log DEBUG [Str "Time to publish map points: ";
                         Dbl (duration_seconds (t3 - t2)); Str " seconds"];
              Log DEBUG [Str "======================="]] |}
    end.
Proof.
  intros H. cbv zeta. unfold publishMapPointCloud. unfold_monad. rewrite H. cbn.
  destruct (data (fst (getCurrentMapPoints PointCloud2_default (interface_ (self w)))))
    as [|b l] eqn:E; cbn; reflexivity.
Qed.
End StepLemmas.

Section DispatchLemmas.
Context {I : ORBSLAM3Interface}.
Variable clk : Clocks.

Lemma dispatch_MapPointsTimer (w : World) :
  dispatch clk MapPointsTimer w =
    if rosViz_ (self w) then publishMapPointCloud clk w
    else {| value := tt; after := w; emitted := [] |}.
Proof.
  cbn [dispatch]. unfold bind at 1, this.
  destruct (rosViz_ (self w)); [|reflexivity].
  destruct (publishMapPointCloud clk w); reflexivity.
Qed.

Lemma dispatch_GetMapCall (rq : GetMap_Request) (rs : GetMap_Response) (w : World) :
  let r := getMapServer rq rs w in
  dispatch clk (GetMapCall rq rs) w =
    {| value := tt; after := after r;
       emitted := emitted r ++ [respond_GetMap (value r)] |}.
Proof. reflexivity. Qed.

Lemma dispatch_GetLandmarksInViewCall (rq : GetLandmarksInView_Request)
    (rs : GetLandmarksInView_Response) (w : World) :
  let r := getMapPointsInViewServer clk rq rs w in
  dispatch clk (GetLandmarksInViewCall rq rs) w =
    {| value := tt; after := after r;
       emitted := emitted r ++ [respond_GetLandmarksInView (value r)] |}.
Proof.
  cbv zeta. cbn [dispatch]. unfold bind at 1.
  rewrite getMapPointsInViewServer_eq. reflexivity.
Qed.
End DispatchLemmas.

(** Case analysis on the callback an event runs and on the branch the
    callback takes, each case rewritten to its closed form. *)
Ltac dispatch_cases clk ev w :=
  destruct ev as [l r | m | m | | | rq rs | rq rs];
  [ cbn [dispatch];
    destruct (tracks l r w) eqn:Htracks;
    [ rewrite !(StereoCallback_tracked _ _ _ Htracks)
    | rewrite !(StereoCallback_untracked _ _ _ Htracks) ]
  | cbn [dispatch]; unfold ImuCallback; unfold_monad
  | cbn [dispatch];
    destruct (no_odometry_mode_ (self w)) eqn:Hmode;
    [ rewrite !(OdomCallback_discard clk m w) by (rewrite Hmode; reflexivity);
      unfold RCLCPP_WARN_THROTTLE;
      destruct (throttle_open (throttle_last_logged w) (ros_clock clk (ros_reads w)) 4000)
        eqn:Hopen
    | destruct (publish_tf_ (self w)) eqn:Hpub;
      [ rewrite !(OdomCallback_composed clk m w Hmode Hpub)
      | rewrite !(OdomCallback_discard clk m w) by (rewrite Hmode, Hpub; reflexivity);
        unfold RCLCPP_WARN_THROTTLE;
        destruct (throttle_open (throttle_last_logged w) (ros_clock clk (ros_reads w)) 4000)
          eqn:Hopen ] ]
  | cbn [dispatch];
    destruct (isTracked_ (self w)) eqn:Hflag;
    [ rewrite !(publishMapData_firing clk w Hflag)
    | rewrite !(publishMapData_idle clk w Hflag) ]
  | rewrite !dispatch_MapPointsTimer; destruct (rosViz_ (self w)) eqn:Hviz;
    [ destruct (isTracked_ (self w)) eqn:Hflag;
      [ rewrite !(publishMapPointCloud_firing clk w Hflag);
        destruct (data (fst (getCurrentMapPoints PointCloud2_default (interface_ (self w)))))
          eqn:Hdata
      | rewrite !(publishMapPointCloud_idle clk w Hflag) ]
    | idtac ]
  | rewrite !dispatch_GetMapCall; rewrite !getMapServer_eq
  | rewrite !dispatch_GetLandmarksInViewCall; rewrite !getMapPointsInViewServer_eq ];
  cbn.

Section Invariants.
Context {I : ORBSLAM3Interface}.
Variable clk : Clocks.

Lemma run_cons (ev : Event) (evs : list Event) (w : World) :
  run clk (ev :: evs) w =
    {| value := tt;
       after := after (run clk evs (after (dispatch clk ev w)));
       emitted := emitted (dispatch clk ev w)
                  ++ emitted (run clk evs (after (dispatch clk ev w))) |}.
Proof.
  cbn [run]. unfold bind.
  destruct (dispatch clk ev w) as [[] w1 o1]. cbn.
  destruct (run clk evs w1) as [[] w2 o2]. reflexivity.
Qed.

Lemma tracked_node_parameters (l r : Image) (n : StereoSlamNode) :
  same_parameters n (tracked_node l r n).
Proof.
  unfold same_parameters, tracked_node.
  destruct (publish_tf_ n && no_odometry_mode_ n); repeat split; reflexivity.
Qed.

Lemma tracked_node_flag (l r : Image) (n : StereoSlamNode) :
  isTracked_ (tracked_node l r n) = true.
Proof.
  unfold tracked_node.
  destruct (publish_tf_ n && no_odometry_mode_ n); reflexivity.
Qed.

Lemma tracked_node_count (l r : Image) (n : StereoSlamNode) :
  frequency_tracker_count_ (tracked_node l r n) = frequency_tracker_count_ n + 1.
Proof.
  unfold tracked_node.
  destruct (publish_tf_ n && no_odometry_mode_ n); reflexivity.
Qed.

(** In composed mode the success branch does not write the cached
    transform. *)
Lemma tracked_node_tf_composed (l r : Image) (n : StereoSlamNode) :
  no_odometry_mode_ n = false ->
  tfMapOdom_ (tracked_node l r n) = tfMapOdom_ n.
Proof.
  intros H. unfold tracked_node. rewrite H, andb_false_r. reflexivity.
Qed.

Lemma dispatch_parameters (ev : Event) (w : World) :
  same_parameters (self w) (self (after (dispatch clk ev w))).
Proof.
  dispatch_cases clk ev w; try apply tracked_node_parameters;
    unfold same_parameters; cbn; repeat split; congruence.
Qed.

Lemma run_parameters (evs : list Event) (w : World) :
  same_parameters (self w) (self (after (run clk evs w))).
Proof.
  revert w. induction evs as [|ev evs IH]; intros w.
  - cbn. repeat split; reflexivity.
  - rewrite run_cons. cbn [after].
    pose proof (dispatch_parameters ev w) as H1.
    pose proof (IH (after (dispatch clk ev w))) as H2.
    unfold same_parameters in *.
    destruct H1 as (? & ? & ? & ?), H2 as (? & ? & ? & ?).
    repeat split; congruence.
Qed.

(** Nothing ever clears the tracking flag. *)
Lemma dispatch_flag_stays (ev : Event) (w : World) :
  isTracked_ (self w) = true -> isTracked_ (self (after (dispatch clk ev w))) = true.
Proof.
  intros H.
  dispatch_cases clk ev w; try apply tracked_node_flag; congruence.
Qed.

Lemma run_flag_stays (evs : list Event) (w : World) :
  isTracked_ (self w) = true -> isTracked_ (self (after (run clk evs w))) = true.
Proof.
  revert w. induction evs as [|ev evs IH]; intros w H.
  - exact H.
  - rewrite run_cons. cbn [after]. apply IH, dispatch_flag_stays, H.
Qed.

(** A callback that leaves the flag false sent nothing the flag guards. *)
Lemma dispatch_gated (ev : Event) (w : World) :
  isTracked_ (self (after (dispatch clk ev w))) = false ->
  gated (emitted (dispatch clk ev w)) = [].
Proof.
  dispatch_cases clk ev w; intros H; try reflexivity; try congruence.
  rewrite tracked_node_flag in H. discriminate.
Qed.

Lemma run_gated (evs : list Event) (w : World) :
  isTracked_ (self (after (run clk evs w))) = false ->
  gated (emitted (run clk evs w)) = [].
Proof.
  revert w. induction evs as [|ev evs IH]; intros w H.
  - reflexivity.
  - rewrite run_cons in *. cbn [after emitted] in *.
    rewrite gated_app, (IH _ H), app_nil_r.
    apply dispatch_gated.
    destruct (isTracked_ (self (after (dispatch clk ev w)))) eqn:E; [|reflexivity].
    rewrite (run_flag_stays evs _ E) in H. discriminate.
Qed.
(** In composed mode only [OdomCallback] writes the cached transform. *)
Lemma dispatch_tf_composed (ev : Event) (w : World) :
  no_odometry_mode_ (self w) = false -> is_OdomSample ev = false ->
  tfMapOdom_ (self (after (dispatch clk ev w))) = tfMapOdom_ (self w).
Proof.
  intros Hc Hev.
  dispatch_cases clk ev w; try reflexivity; try discriminate.
  apply tracked_node_tf_composed, Hc.
Qed.

Lemma run_tf_composed (evs : list Event) (w : World) :
  no_odometry_mode_ (self w) = false -> no_OdomSample evs = true ->
  tfMapOdom_ (self (after (run clk evs w))) = tfMapOdom_ (self w).
Proof.
  revert w. induction evs as [|ev evs IH]; intros w Hc Hevs.
  - reflexivity.
  - cbn in Hevs. apply andb_true_iff in Hevs. destruct Hevs as [Hev Hevs].
    apply negb_true_iff in Hev.
    rewrite run_cons. cbn [after].
    rewrite IH; [apply dispatch_tf_composed; assumption | | exact Hevs].
    destruct (dispatch_parameters ev w) as (_ & _ & Hm & _). congruence.
Qed.

(** Between two firings of the map-data timer the counter grows by one
    per tracked pair and the reference instant stays put. *)
Lemma dispatch_count (ev : Event) (w : World) :
  is_MapDataTimer ev = false ->
  frequency_tracker_count_ (self (after (dispatch clk ev w))) =
    frequency_tracker_count_ (self w) + tracked_count (emitted (dispatch clk ev w))
  /\ frequency_tracker_clock_ (self (after (dispatch clk ev w))) =
       frequency_tracker_clock_ (self w).
Proof.
  intros Hev.
  dispatch_cases clk ev w; try discriminate;
    try (unfold tracked_count; cbn; split; [lia | reflexivity]).
  rewrite tracked_node_count. unfold tracked_count.
  split.
  - destruct (publish_tf_ (self w)); cbn; lia.
  - unfold tracked_node.
    destruct (publish_tf_ (self w) && no_odometry_mode_ (self w)); reflexivity.
Qed.

Lemma run_count (evs : list Event) (w : World) :
  no_MapDataTimer evs = true ->
  frequency_tracker_count_ (self (after (run clk evs w))) =
    frequency_tracker_count_ (self w) + tracked_count (emitted (run clk evs w))
  /\ frequency_tracker_clock_ (self (after (run clk evs w))) =
       frequency_tracker_clock_ (self w).
Proof.
  revert w. induction evs as [|ev evs IH]; intros w Hevs.
  - cbn. unfold tracked_count. cbn. split; [lia | reflexivity].
  - cbn in Hevs. apply andb_true_iff in Hevs. destruct Hevs as [Hev Hevs].
    apply negb_true_iff in Hev.
    rewrite run_cons. cbn [after emitted].
    destruct (IH (after (dispatch clk ev w)) Hevs) as [IH1 IH2].
    destruct (dispatch_count ev w Hev) as [H1 H2].
    rewrite tracked_count_app. split; [lia | congruence].
Qed.

(** The throttled warning: a callback lets at most one through, and only
    when the window since the previous one has passed. *)
Lemma throttle_open_window (last : option Z) (t d : Z) :
  throttle_open last t d = true -> window_passed d last t.
Proof.
  destruct last as [l|]; cbn; [|trivial]. apply Z.leb_le.
Qed.

Lemma dispatch_throttle (ev : Event) (w : World) :
  let r := dispatch clk ev w in
  (warn_stamps (emitted r) = [] /\
   throttle_last_logged (after r) = throttle_last_logged w)
  \/ (exists t, warn_stamps (emitted r) = [t] /\
                throttle_last_logged (after r) = Some t /\
                window_passed 4000 (throttle_last_logged w) t).
Proof.
  cbv zeta.
  dispatch_cases clk ev w;
    try (left; split; reflexivity);
    try (destruct (publish_tf_ (self w)); left; split; reflexivity);
    right; eexists; repeat split; apply throttle_open_window; assumption.
Qed.

Lemma run_throttle (evs : list Event) (w : World) :
  spaced 4000 (throttle_last_logged w) (warn_stamps (emitted (run clk evs w))).
Proof.
  revert w. induction evs as [|ev evs IH]; intros w.
  - exact Logic.I.
  - rewrite run_cons. cbn [emitted]. rewrite warn_stamps_app.
    pose proof (IH (after (dispatch clk ev w))) as IH'.
    destruct (dispatch_throttle ev w) as [[H1 H2] | (t & H1 & H2 & H3)];
      rewrite H1, H2 in *; cbn [app].
    + exact IH'.
    + cbn [spaced]. split; [exact H3 | exact IH'].
Qed.
(** In composed mode a tracked pair broadcasts the cached transform as
    it stands. *)
Lemma StereoCallback_broadcast_composed (l r : Image) (w : World) :
  no_odometry_mode_ (self w) = false -> publish_tf_ (self w) = true ->
  tracks l r w = true ->
  broadcasts (emitted (StereoCallback l r w)) = [tfMapOdom_ (self w)].
Proof.
  intros Hmode Hpub Htr. rewrite (StereoCallback_tracked _ _ _ Htr). cbn [emitted].
  rewrite Hpub, broadcasts_app. cbn.
  rewrite tracked_node_tf_composed by exact Hmode. reflexivity.
Qed.
End Invariants.

(** ** The claims of the specification *)

Section Claims.
Context {I : ORBSLAM3Interface}.
Variable clk : Clocks.

(** C1 (amended).  In composed mode ([no_odometry_mode_] false) with
    [publish_tf_] set, an odometry sample makes [OdomCallback] compute a
    map-to-odom transform and store it in [tfMapOdom_]; the callback
    itself sends nothing to the broadcaster and publishes nothing.  The
    broadcast is made by [StereoCallback]: a tracked pair sends the
    cached transform. *)
Theorem composed_mode_odometry_caches_tracking_broadcasts
    (w : World) (msgOdom : Odometry) (msgLeft msgRight : Image) :
  no_odometry_mode_ (self w) = false ->
  publish_tf_ (self w) = true ->
  let q := getMapToOdomTF msgOdom (tfMapOdom_ (self w)) (interface_ (self w)) in
  let ro := OdomCallback clk msgOdom w in
  (tfMapOdom_ (self (after ro)) = fst q /\
   broadcasts (emitted ro) = [] /\
   publications (emitted ro) = [])
  /\ (tracks msgLeft msgRight w = true ->
      broadcasts (emitted (StereoCallback msgLeft msgRight w)) = [tfMapOdom_ (self w)]).
Proof.
  intros Hmode Hpub. cbv zeta. split.
  - rewrite (OdomCallback_composed clk msgOdom w Hmode Hpub). cbn.
    repeat split.
  - intros Htr. apply StereoCallback_broadcast_composed; assumption.
Qed.

(** C2 (amended).  A run that ends with [isTracked_] still false has
    sent no map data, no landmark cloud and no transform.  Once a pair
    has been tracked, whatever happens next, a firing of the map-data
    timer publishes one map-data message, and a firing of the landmark
    timer publishes the cloud it fetched exactly when that cloud is not
    empty. *)
Theorem tracking_flag_gates_periodic_output
    (evs : list Event) (w : World) (msgLeft msgRight : Image) (evs' : list Event) :
  (isTracked_ (self (after (run clk evs w))) = false ->
   gated (emitted (run clk evs w)) = [])
  /\ (tracks msgLeft msgRight w = true ->
      let w' := after (run clk evs' (after (StereoCallback msgLeft msgRight w))) in
      let snapshot := fst (mapDataToMsg MapData_default true false
                             kFIDforMapPoints_default (interface_ (self w'))) in
      let cloud := fst (getCurrentMapPoints PointCloud2_default (interface_ (self w'))) in
      isTracked_ (self w') = true /\
      publications (emitted (publishMapData clk w')) = [publish_map_data snapshot] /\
      publications (emitted (publishMapPointCloud clk w')) =
        match data cloud with
        | [] => []
        | _ :: _ => [publish_map_points cloud]
        end).
Proof.
  split; [apply run_gated|].
  intros Htr. cbv zeta.
  assert (Hflag : isTracked_ (self (after (run clk evs'
            (after (StereoCallback msgLeft msgRight w))))) = true).
  { apply run_flag_stays. rewrite (StereoCallback_tracked _ _ _ Htr). cbn.
    apply tracked_node_flag. }
  split; [exact Hflag|]. split.
  - rewrite (publishMapData_firing clk _ Hflag). reflexivity.
  - rewrite (publishMapPointCloud_firing clk _ Hflag).
    destruct (data (fst (getCurrentMapPoints PointCloud2_default _))); reflexivity.
Qed.

(** C3.  A synchronized pair the engine does not track changes no
    member of the node other than the engine handle itself: the flag,
    the counter, the reference instant and the cached transform keep
    their values, and nothing is broadcast or published. *)
Theorem untracked_pair_leaves_node_unchanged
    (w : World) (msgLeft msgRight : Image) :
  tracks msgLeft msgRight w = false ->
  let r := StereoCallback msgLeft msgRight w in
  self (after r) =
    set_interface_ (snd (trackStereo msgLeft msgRight SE3f_default (interface_ (self w))))
      (self w)
  /\ isTracked_ (self (after r)) = isTracked_ (self w)
  /\ frequency_tracker_count_ (self (after r)) = frequency_tracker_count_ (self w)
  /\ frequency_tracker_clock_ (self (after r)) = frequency_tracker_clock_ (self w)
  /\ tfMapOdom_ (self (after r)) = tfMapOdom_ (self w)
  /\ broadcasts (emitted r) = []
  /\ publications (emitted r) = [].
Proof.
  intros Htr. cbv zeta. rewrite (StereoCallback_untracked _ _ _ Htr). cbn.
  repeat split.
Qed.

(** C4.  When the landmark timer fires with [isTracked_] set, an empty
    cloud ([data.size() == 0]) makes the callback return without any
    publish call; a cloud with data is published, once, on
    [mapPointsPub_]. *)
Theorem landmark_cloud_published_iff_nonempty (w : World) :
  isTracked_ (self w) = true ->
  let cloud := fst (getCurrentMapPoints PointCloud2_default (interface_ (self w))) in
  let r := publishMapPointCloud clk w in
  (List.length (data cloud) = 0%nat ->
   publications (emitted r) = [] /\ broadcasts (emitted r) = [])
  /\ (List.length (data cloud) <> 0%nat ->
      publications (emitted r) = [publish_map_points cloud]).
Proof.
  intros Hflag. cbv zeta. rewrite (publishMapPointCloud_firing clk w Hflag).
  destruct (data (fst (getCurrentMapPoints PointCloud2_default _))) as [|b l]; cbn.
  - split; [intros _; split; reflexivity | intros H; contradiction H; reflexivity].
  - split; [discriminate | intros _; reflexivity].
Qed.

(** C5.  A firing of the map-data timer with [isTracked_] set leaves
    the counter at zero and streams into the log the counter it found
    divided by the seconds elapsed since the reference instant.  Between
    that firing and the next one the counter grows by one per tracked
    pair, so the next firing logs the number of pairs tracked in between
    divided by the seconds since the previous firing, and leaves the
    counter at zero again. *)
Theorem frequency_counter_reset_and_estimate (w : World) (evs : list Event) :
  isTracked_ (self w) = true ->
  no_MapDataTimer evs = true ->
  let r1 := publishMapData clk w in
  let r2 := run clk evs (after r1) in
  let r3 := publishMapData clk (after r2) in
  let t_reset := hr_clock clk (S (S (hr_reads w))) in
  let t_log := hr_clock clk (S (hr_reads (after r2))) in
  frequency_tracker_count_ (self (after r1)) = 0
  /\ frequency_lines (emitted r1) =
       [PrimFloat.div (double_of_int (frequency_tracker_count_ (self w)))
          (duration_seconds
             (hr_clock clk (S (hr_reads w)) - frequency_tracker_clock_ (self w)))]
  /\ frequency_tracker_count_ (self (after r2)) = tracked_count (emitted r2)
  /\ frequency_lines (emitted r3) =
       [PrimFloat.div (double_of_int (tracked_count (emitted r2)))
          (duration_seconds (t_log - t_reset))]
  /\ frequency_tracker_count_ (self (after r3)) = 0.
Proof.
  intros Hflag Hevs. cbv zeta.
  assert (Hflag1 : isTracked_ (self (after (publishMapData clk w))) = true).
  { rewrite (publishMapData_firing clk w Hflag). exact Hflag. }
  pose proof (run_flag_stays clk evs _ Hflag1) as Hflag2.
  destruct (run_count clk evs (after (publishMapData clk w)) Hevs) as [Hc Hk].
  assert (Hc1 : frequency_tracker_count_ (self (after (publishMapData clk w))) = 0).
  { rewrite (publishMapData_firing clk w Hflag). reflexivity. }
  assert (Hk1 : frequency_tracker_clock_ (self (after (publishMapData clk w)))
                = hr_clock clk (S (S (hr_reads w)))).
  { rewrite (publishMapData_firing clk w Hflag). reflexivity. }
  rewrite Hc1, Z.add_0_l in Hc. rewrite Hk1 in Hk.
  split; [exact Hc1|]. split.
  { rewrite (publishMapData_firing clk w Hflag). reflexivity. }
  split; [exact Hc|].
  rewrite (publishMapData_firing clk _ Hflag2). cbn [after emitted self].
  rewrite Hc, Hk. split; reflexivity.
Qed.

(** C6.  [getMapServer] answers with the snapshot the engine builds
    for the request's own [tracked_points] flag and keyframe-id list.
    It never reads [isTracked_]: the answer is the same whatever the
    flag holds, and a request served right after construction gets the
    engine's snapshot of its initial map. *)
Theorem map_query_ignores_tracking_flag
    (w : World) (request : GetMap_Request) (response : GetMap_Response)
    (flag : bool) (p : Parameters) (engine : System) :
  let snapshot_of s :=
    fst (mapDataToMsg MapData_default false (tracked_points request)
           (kf_id_for_landmarks request) s) in
  value (getMapServer request response w)
    = {| gm_data := snapshot_of (interface_ (self w)) |}
  /\ value (getMapServer request response (with_self (set_isTracked_ flag (self w)) w))
     = value (getMapServer request response w)
  /\ publications (emitted (getMapServer request response w)) = []
  /\ value (getMapServer request response (after (constructor clk p engine)))
     = {| gm_data := snapshot_of engine |}.
Proof. cbv zeta. repeat split. Qed.

(** C7.  [getMapPointsInViewServer] asks the engine for the points
    visible from the request's pose with the literals 1000, 5.0 and 2.0,
    and answers with one landmark per returned point, in the same order,
    each carrying the converted world position of its point and nothing
    else. *)
Theorem landmarks_in_view_response
    (w : World) (request : GetLandmarksInView_Request)
    (response : GetLandmarksInView_Response) :
  let q := mapPointsVisibleFromPose (liv_pose request) [] 1000 5%float 2%float
             (interface_ (self w)) in
  let answer := value (getMapPointsInViewServer clk request response w) in
  map_points answer =
    map (fun point =>
           let position := vector3fORBToROS (GetWorldPos point (snd q)) in
           {| mp_position := {| p_x := e_x position; p_y := e_y position;
                                p_z := e_z position |} |})
        (fst q)
  /\ List.length (map_points answer) = List.length (fst q).
Proof.
  cbv zeta. rewrite getMapPointsInViewServer_eq. cbn.
  split; [reflexivity | apply length_map].
Qed.
(** C8.  [OdomCallback] drops the sample when no-odometry mode is on or
    transform publication is off: the node, engine handle included, is
    left as it was, and the only thing the callback does is hand the
    warning to the throttle with a period of 4000 ms.  Otherwise the
    sample goes to [getMapToOdomTF] and the result replaces the cached
    transform.  Over any run, two warnings that got through are at
    least 4 seconds apart. *)
Theorem odometry_discarded_unless_composed
    (w : World) (msgOdom : Odometry) (evs : list Event) :
  let r := OdomCallback clk msgOdom w in
  let t := ros_clock clk (ros_reads w) in
  (no_odometry_mode_ (self w) || negb (publish_tf_ (self w)) = true ->
   self (after r) = self w /\
   emitted r =
     if throttle_open (throttle_last_logged w) t 4000
     then [LogThrottled WARN t
             [Str "Odometry msg recorded but no odometry mode is true, set to false to use this odometry"]]
     else [])
  /\ (no_odometry_mode_ (self w) || negb (publish_tf_ (self w)) = false ->
      let q := getMapToOdomTF msgOdom (tfMapOdom_ (self w)) (interface_ (self w)) in
      self (after r) = set_tfMapOdom_ (fst q) (set_interface_ (snd q) (self w)) /\
      warn_stamps (emitted r) = [])
  /\ spaced 4000 (throttle_last_logged w) (warn_stamps (emitted (run clk evs w))).
Proof.
  cbv zeta. split; [|split].
  - intros H. rewrite (OdomCallback_discard clk msgOdom w H).
    unfold RCLCPP_WARN_THROTTLE.
    destruct (throttle_open _ _ _); split; reflexivity.
  - intros H. apply orb_false_iff in H. destruct H as [Hmode Hpub].
    apply negb_false_iff in Hpub.
    rewrite (OdomCallback_composed clk msgOdom w Hmode Hpub). split; reflexivity.
  - apply run_throttle.
Qed.

(** C9.  In composed mode with [publish_tf_] set, a tracked pair
    broadcasts the transform cached by the last odometry sample, whatever
    else ran in between; a pair tracked before any odometry sample was
    processed broadcasts the default-constructed transform (identity,
    empty frame names). *)
Theorem tracking_success_broadcasts_cached_transform
    (w : World) (msgOdom : Odometry) (evs : list Event) (msgLeft msgRight : Image)
    (p : Parameters) (engine : System) (evs0 : list Event) (msgLeft0 msgRight0 : Image) :
  (no_odometry_mode_ (self w) = false ->
   publish_tf_ (self w) = true ->
   no_OdomSample evs = true ->
   let w' := after (run clk evs (after (OdomCallback clk msgOdom w))) in
   tracks msgLeft msgRight w' = true ->
   broadcasts (emitted (StereoCallback msgLeft msgRight w')) =
     [fst (getMapToOdomTF msgOdom (tfMapOdom_ (self w)) (interface_ (self w)))])
  /\ (no_odometry_mode p = false ->
      publish_tf p = true ->
      no_OdomSample evs0 = true ->
      let w0 := after (run clk evs0 (after (constructor clk p engine))) in
      tracks msgLeft0 msgRight0 w0 = true ->
      broadcasts (emitted (StereoCallback msgLeft0 msgRight0 w0)) =
        [TransformStamped_default]).
Proof.
  split.
  - intros Hmode Hpub Hevs w' Htr. subst w'.
    set (w1 := after (OdomCallback clk msgOdom w)) in *.
    assert (H1 : no_odometry_mode_ (self w1) = false /\ publish_tf_ (self w1) = true
                 /\ tfMapOdom_ (self w1)
                    = fst (getMapToOdomTF msgOdom (tfMapOdom_ (self w)) (interface_ (self w)))).
    { subst w1. rewrite (OdomCallback_composed clk msgOdom w Hmode Hpub). cbn.
      repeat split; assumption. }
    destruct H1 as (Hm1 & Hp1 & Htf1).
    destruct (run_parameters clk evs w1) as (_ & _ & Hm2 & Hp2).
    rewrite StereoCallback_broadcast_composed; [| congruence | congruence | exact Htr].
    rewrite (run_tf_composed clk evs w1 Hm1 Hevs), Htf1. reflexivity.
  - intros Hmode Hpub Hevs w0 Htr. subst w0.
    set (wc := after (constructor clk p engine)) in *.
    assert (Hm1 : no_odometry_mode_ (self wc) = false) by exact Hmode.
    assert (Hp1 : publish_tf_ (self wc) = true) by exact Hpub.
    destruct (run_parameters clk evs0 wc) as (_ & _ & Hm2 & Hp2).
    rewrite StereoCallback_broadcast_composed; [| congruence | congruence | exact Htr].
    rewrite (run_tf_composed clk evs0 wc Hm1 Hevs). reflexivity.
Qed.

(** C10.  Whatever the node's state (tracking flag, configured global
    frame) and whatever the engine returns (no point at all included),
    [getMapPointsInViewServer] publishes exactly two messages: the cloud
    built from the returned points on [visibleLandmarksPub_], then the
    request's pose, stamped with the current time and the literal frame
    id "map", on [visibleLandmarksPose_]. *)
Theorem landmarks_in_view_side_channel_unconditional
    (w : World) (request : GetLandmarksInView_Request)
    (response : GetLandmarksInView_Response) :
  let q := mapPointsVisibleFromPose (liv_pose request) [] 1000 5%float 2%float
             (interface_ (self w)) in
  publications (emitted (getMapPointsInViewServer clk request response w)) =
    [publish_visible_landmarks (MapPointsToPCL (fst q) (snd q));
     publish_visible_landmarks_pose
       {| ps_header := {| stamp := ros_clock clk (ros_reads w); frame_id := "map" |};
          ps_pose := liv_pose request |}].
Proof.
  cbv zeta. rewrite getMapPointsInViewServer_eq. reflexivity.
Qed.
End Claims.

(** ** Further properties of the callbacks *)

Section Orchestration.
Context {I : ORBSLAM3Interface}.
Variable clk : Clocks.

Lemma tracked_count_nonneg (out : list Output) : 0 <= tracked_count out.
Proof. unfold tracked_count. lia. Qed.

Lemma count_outputs_app (f : Output -> bool) (a b : list Output) :
  count_outputs f (a ++ b) = (count_outputs f a + count_outputs f b)%nat.
Proof. unfold count_outputs. rewrite filter_app, length_app. reflexivity. Qed.

Lemma dispatch_flag_value (ev : Event) (w : World) :
  isTracked_ (self (after (dispatch clk ev w))) =
    isTracked_ (self w) || (0 <? tracked_count (emitted (dispatch clk ev w))).
Proof.
  dispatch_cases clk ev w; unfold tracked_count; cbn;
    try (rewrite ?orb_false_r; congruence).
  rewrite tracked_node_flag.
  destruct (publish_tf_ (self w)); cbn; rewrite orb_true_r; reflexivity.
Qed.

(** X1.  [isTracked_] after a run is its value before the run or-ed with
    "some pair was tracked during the run": only the success branch of
    [StereoCallback] writes the flag, and it only ever writes true. *)
Theorem flag_set_iff_some_pair_tracked (evs : list Event) (w : World) :
  isTracked_ (self (after (run clk evs w))) =
    isTracked_ (self w) || (0 <? tracked_count (emitted (run clk evs w))).
Proof.
  revert w. induction evs as [|ev evs IH]; intros w.
  - cbn. rewrite orb_false_r. reflexivity.
  - rewrite run_cons. cbn [after emitted].
    rewrite IH, dispatch_flag_value, tracked_count_app.
    pose proof (tracked_count_nonneg (emitted (dispatch clk ev w))) as H1.
    pose proof (tracked_count_nonneg
                  (emitted (run clk evs (after (dispatch clk ev w))))) as H2.
    rewrite <- orb_assoc. f_equal.
    destruct (0 <? tracked_count (emitted (dispatch clk ev w))) eqn:E1;
      destruct (0 <? tracked_count (emitted (run clk evs (after (dispatch clk ev w)))))
        eqn:E2; cbn; symmetry;
      rewrite ?Z.ltb_lt, ?Z.ltb_ge in *; lia.
Qed.

Lemma dispatch_broadcast_count (ev : Event) (w : World) :
  publish_tf_ (self w) = true ->
  Z.of_nat (List.length (broadcasts (emitted (dispatch clk ev w)))) =
    tracked_count (emitted (dispatch clk ev w)).
Proof.
  intros H. dispatch_cases clk ev w; try reflexivity.
  rewrite H. reflexivity.
Qed.

(** X2.  With [publish_tf_] set, a run sends exactly one transform per
    tracked pair: nothing but the success branch of [StereoCallback]
    reaches the broadcaster, in either mode. *)
Theorem one_broadcast_per_tracked_pair (evs : list Event) (w : World) :
  publish_tf_ (self w) = true ->
  Z.of_nat (List.length (broadcasts (emitted (run clk evs w)))) =
    tracked_count (emitted (run clk evs w)).
Proof.
  revert w. induction evs as [|ev evs IH]; intros w H.
  - reflexivity.
  - rewrite run_cons. cbn [emitted].
    rewrite broadcasts_app, length_app, tracked_count_app, Nat2Z.inj_add.
    rewrite (dispatch_broadcast_count ev w H), IH; [reflexivity|].
    destruct (dispatch_parameters clk ev w) as (_ & _ & _ & Hp). congruence.
Qed.

Lemma dispatch_publish_tf_off (ev : Event) (w : World) :
  publish_tf_ (self w) = false ->
  broadcasts (emitted (dispatch clk ev w)) = []
  /\ tfMapOdom_ (self (after (dispatch clk ev w))) = tfMapOdom_ (self w).
Proof.
  intros H. dispatch_cases clk ev w; try (split; reflexivity); try congruence.
  rewrite H. unfold tracked_node. rewrite H. cbn. split; reflexivity.
Qed.

(** X3.  With [publish_tf_] cleared, no run sends a transform and no run
    writes the cached transform: odometry samples are dropped and tracked
    pairs skip the whole transform block. *)
Theorem no_transform_when_publish_tf_off (evs : list Event) (w : World) :
  publish_tf_ (self w) = false ->
  broadcasts (emitted (run clk evs w)) = []
  /\ tfMapOdom_ (self (after (run clk evs w))) = tfMapOdom_ (self w).
Proof.
  revert w. induction evs as [|ev evs IH]; intros w H.
  - split; reflexivity.
  - rewrite run_cons. cbn [after emitted].
    destruct (dispatch_publish_tf_off ev w H) as [H1 H2].
    destruct (dispatch_parameters clk ev w) as (_ & _ & _ & Hp).
    destruct (IH (after (dispatch clk ev w))) as [H3 H4]; [congruence|].
    rewrite broadcasts_app, H1, H3, H4, H2. split; reflexivity.
Qed.

(** X4.  In direct mode ([no_odometry_mode_] set) with [publish_tf_] set,
    a tracked pair asks the engine for the map-to-robot transform with the
    left image's header, after the tracking call, stores the result in
    [tfMapOdom_] and broadcasts that same transform; the counter goes up
    by one. *)
Theorem direct_mode_tracked_pair_broadcasts_direct_transform
    (w : World) (msgLeft msgRight : Image) :
  no_odometry_mode_ (self w) = true ->
  publish_tf_ (self w) = true ->
  tracks msgLeft msgRight w = true ->
  let tracked := snd (trackStereo msgLeft msgRight SE3f_default (interface_ (self w))) in
  let q := getDirectMapToRobotTF (img_header msgLeft) (tfMapOdom_ (self w)) tracked in
  let r := StereoCallback msgLeft msgRight w in
  broadcasts (emitted r) = [fst q]
  /\ tfMapOdom_ (self (after r)) = fst q
  /\ interface_ (self (after r)) = snd q
  /\ isTracked_ (self (after r)) = true
  /\ frequency_tracker_count_ (self (after r)) = frequency_tracker_count_ (self w) + 1.
Proof.
  intros Hmode Hpub Htr. cbv zeta.
  rewrite (StereoCallback_tracked _ _ _ Htr). cbn [after emitted self with_self].
  rewrite Hpub, broadcasts_app. unfold tracked_node. rewrite Hmode, Hpub. cbn.
  repeat split.
Qed.

Lemma dispatch_tf_direct (ev : Event) (w : World) :
  no_odometry_mode_ (self w) = true -> is_StereoPair ev = false ->
  tfMapOdom_ (self (after (dispatch clk ev w))) = tfMapOdom_ (self w).
Proof.
  intros Hm Hev. dispatch_cases clk ev w; try reflexivity; try discriminate; congruence.
Qed.

Lemma run_tf_direct (evs : list Event) (w : World) :
  no_odometry_mode_ (self w) = true -> no_StereoPair evs = true ->
  tfMapOdom_ (self (after (run clk evs w))) = tfMapOdom_ (self w).
Proof.
  revert w. induction evs as [|ev evs IH]; intros w Hm Hevs.
  - reflexivity.
  - cbn in Hevs. apply andb_true_iff in Hevs. destruct Hevs as [Hev Hevs].
    apply negb_true_iff in Hev.
    rewrite run_cons. cbn [after].
    rewrite IH; [apply dispatch_tf_direct; assumption | | exact Hevs].
    destruct (dispatch_parameters clk ev w) as (_ & _ & Hm' & _). congruence.
Qed.

(** X5.  Each mode has one writer of the cached transform.  In composed
    mode a run without odometry samples leaves [tfMapOdom_] as it was; in
    direct mode a run without stereo pairs does. *)
Theorem cached_transform_has_one_writer_per_mode (evs : list Event) (w : World) :
  (no_odometry_mode_ (self w) = false -> no_OdomSample evs = true ->
   tfMapOdom_ (self (after (run clk evs w))) = tfMapOdom_ (self w))
  /\ (no_odometry_mode_ (self w) = true -> no_StereoPair evs = true ->
      tfMapOdom_ (self (after (run clk evs w))) = tfMapOdom_ (self w)).
Proof.
  split; [apply run_tf_composed | apply run_tf_direct].
Qed.

Lemma replay_counter_app (c : Z) (a b : list Output) :
  replay_counter c (a ++ b) = replay_counter (replay_counter c a) b.
Proof. apply fold_left_app. Qed.

Lemma dispatch_counter_replay (ev : Event) (w : World) :
  frequency_tracker_count_ (self (after (dispatch clk ev w))) =
    replay_counter (frequency_tracker_count_ (self w)) (emitted (dispatch clk ev w)).
Proof.
  dispatch_cases clk ev w; try reflexivity.
  rewrite tracked_node_count. destruct (publish_tf_ (self w)); reflexivity.
Qed.

(** X6.  The counter can be read back from what the node sent out: start
    from its value before the run, add one at every tracked pair, go back
    to zero at every map-data publication.  Timer firings that publish
    nothing, untracked pairs, sensor samples and service calls leave it
    alone. *)
Theorem counter_follows_trace (evs : list Event) (w : World) :
  frequency_tracker_count_ (self (after (run clk evs w))) =
    replay_counter (frequency_tracker_count_ (self w)) (emitted (run clk evs w)).
Proof.
  revert w. induction evs as [|ev evs IH]; intros w.
  - reflexivity.
  - rewrite run_cons. cbn [after emitted].
    rewrite replay_counter_app, IH, dispatch_counter_replay. reflexivity.
Qed.

Lemma forward_all_app (a b : list Imu) (s : System) :
  forward_all (a ++ b) s = forward_all b (forward_all a s).
Proof. apply fold_left_app. Qed.

(** X7.  IMU samples are handed to the engine one by one in arrival
    order, whatever the mode and the tracking flag; the node's own members
    are not touched and nothing is published or broadcast. *)
Theorem imu_samples_forwarded_in_order (msgs : list Imu) (w : World) :
  let r := run clk (map ImuSample msgs) w in
  interface_ (self (after r)) = forward_all msgs (interface_ (self w))
  /\ isTracked_ (self (after r)) = isTracked_ (self w)
  /\ frequency_tracker_count_ (self (after r)) = frequency_tracker_count_ (self w)
  /\ frequency_tracker_clock_ (self (after r)) = frequency_tracker_clock_ (self w)
  /\ tfMapOdom_ (self (after r)) = tfMapOdom_ (self w)
  /\ publications (emitted r) = []
  /\ broadcasts (emitted r) = [].
Proof.
  cbv zeta. revert w. induction msgs as [|m msgs IH]; intros w.
  - cbn. repeat split.
  - cbn [map]. rewrite run_cons. cbn [after emitted].
    destruct (IH (after (dispatch clk (ImuSample m) w)))
      as (H1 & H2 & H3 & H4 & H5 & H6 & H7).
    rewrite H1, H2, H3, H4, H5, publications_app, broadcasts_app, H6, H7.
    cbn. repeat split.
Qed.

Lemma dispatch_map_points_need_rosViz (ev : Event) (w : World) :
  rosViz_ (self w) = false ->
  count_outputs is_map_points (emitted (dispatch clk ev w)) = 0%nat.
Proof.
  intros H. dispatch_cases clk ev w; try reflexivity; try congruence.
  destruct (publish_tf_ (self w)); reflexivity.
Qed.

(** X8.  With ROS visualization off the landmark timer is never created:
    no run publishes a landmark cloud on [mapPointsPub_], tracked or not. *)
Theorem no_landmark_cloud_without_ros_visualization (evs : list Event) (w : World) :
  rosViz_ (self w) = false ->
  count_outputs is_map_points (emitted (run clk evs w)) = 0%nat.
Proof.
  revert w. induction evs as [|ev evs IH]; intros w H.
  - reflexivity.
  - rewrite run_cons. cbn [emitted].
    rewrite count_outputs_app, (dispatch_map_points_need_rosViz ev w H), IH;
      [reflexivity|].
    destruct (dispatch_parameters clk ev w) as (Hv & _). congruence.
Qed.

Lemma dispatch_publication_sources (ev : Event) (w : World) :
  let out := emitted (dispatch clk ev w) in
  count_outputs is_visible_landmarks out = count_events is_GetLandmarksInViewCall [ev]
  /\ count_outputs is_visible_landmarks_pose out
     = count_events is_GetLandmarksInViewCall [ev]
  /\ (count_outputs is_map_data out <= count_events is_MapDataTimer [ev])%nat
  /\ (count_outputs is_map_points out <= count_events is_MapPointsTimer [ev])%nat.
Proof.
  cbv zeta. dispatch_cases clk ev w; unfold count_outputs, count_events; cbn;
    try (repeat split; lia).
  destruct (publish_tf_ (self w)); cbn; repeat split; lia.
Qed.

Lemma count_events_cons (f : Event -> bool) (ev : Event) (evs : list Event) :
  count_events f (ev :: evs) = (count_events f [ev] + count_events f evs)%nat.
Proof. unfold count_events. cbn. destruct (f ev); reflexivity. Qed.

(** X9.  Every publication has its trigger.  Over any run the node
    publishes one visible-landmarks cloud and one pose per landmarks-in-view
    request, exactly; it publishes at most one map-data message per firing
    of the map-data timer and at most one landmark cloud per firing of the
    landmark timer. *)
Theorem publications_match_their_triggers (evs : list Event) (w : World) :
  let out := emitted (run clk evs w) in
  count_outputs is_visible_landmarks out = count_events is_GetLandmarksInViewCall evs
  /\ count_outputs is_visible_landmarks_pose out
     = count_events is_GetLandmarksInViewCall evs
  /\ (count_outputs is_map_data out <= count_events is_MapDataTimer evs)%nat
  /\ (count_outputs is_map_points out <= count_events is_MapPointsTimer evs)%nat.
Proof.
  cbv zeta. revert w. induction evs as [|ev evs IH]; intros w.
  - cbn. repeat split; lia.
  - rewrite run_cons. cbn [emitted].
    rewrite !count_outputs_app.
    rewrite (count_events_cons is_GetLandmarksInViewCall),
      (count_events_cons is_MapDataTimer), (count_events_cons is_MapPointsTimer).
    destruct (dispatch_publication_sources ev w) as (H1 & H2 & H3 & H4).
    destruct (IH (after (dispatch clk ev w))) as (H5 & H6 & H7 & H8).
    repeat split; lia.
Qed.

Lemma dispatch_composed_never_warns (ev : Event) (w : World) :
  no_odometry_mode_ (self w) = false -> publish_tf_ (self w) = true ->
  warn_stamps (emitted (dispatch clk ev w)) = []
  /\ throttle_last_logged (after (dispatch clk ev w)) = throttle_last_logged w.
Proof.
  intros Hm Hp. dispatch_cases clk ev w; try (split; reflexivity); try congruence.
  rewrite Hp. split; reflexivity.
Qed.

(** X10.  In composed mode with [publish_tf_] set the odometry warning is
    never issued: every sample takes the transform branch, and no other
    callback warns. *)
Theorem composed_mode_never_warns (evs : list Event) (w : World) :
  no_odometry_mode_ (self w) = false ->
  publish_tf_ (self w) = true ->
  warn_stamps (emitted (run clk evs w)) = []
  /\ throttle_last_logged (after (run clk evs w)) = throttle_last_logged w.
Proof.
  revert w. induction evs as [|ev evs IH]; intros w Hm Hp.
  - split; reflexivity.
  - rewrite run_cons. cbn [after emitted].
    destruct (dispatch_composed_never_warns ev w Hm Hp) as [H1 H2].
    destruct (dispatch_parameters clk ev w) as (_ & _ & Hm' & Hp').
    destruct (IH (after (dispatch clk ev w))) as [H3 H4]; [congruence | congruence |].
    rewrite warn_stamps_app, H1, H3, H4, H2. split; reflexivity.
Qed.

Lemma dispatch_count_until_publication (ev : Event) (w : World) :
  count_outputs is_map_data (emitted (dispatch clk ev w)) = 0%nat ->
  frequency_tracker_count_ (self (after (dispatch clk ev w))) =
    frequency_tracker_count_ (self w) + tracked_count (emitted (dispatch clk ev w))
  /\ frequency_tracker_clock_ (self (after (dispatch clk ev w))) =
       frequency_tracker_clock_ (self w).
Proof.
  destruct (is_MapDataTimer ev) eqn:Hev; [|intros _; apply dispatch_count, Hev].
  destruct ev; try discriminate. cbn [dispatch].
  destruct (isTracked_ (self w)) eqn:Hflag.
  - rewrite (publishMapData_firing clk w Hflag). cbn. discriminate.
  - rewrite (publishMapData_idle clk w Hflag). intros _. unfold tracked_count. cbn.
    split; [lia | reflexivity].
Qed.

Lemma run_count_until_publication (evs : list Event) (w : World) :
  count_outputs is_map_data (emitted (run clk evs w)) = 0%nat ->
  frequency_tracker_count_ (self (after (run clk evs w))) =
    frequency_tracker_count_ (self w) + tracked_count (emitted (run clk evs w))
  /\ frequency_tracker_clock_ (self (after (run clk evs w))) =
       frequency_tracker_clock_ (self w).
Proof.
  revert w. induction evs as [|ev evs IH]; intros w H.
  - unfold tracked_count. cbn. split; [lia | reflexivity].
  - rewrite run_cons in *. cbn [after emitted] in *.
    rewrite count_outputs_app in H.
    destruct (dispatch_count_until_publication ev w) as [H1 H2]; [lia|].
    destruct (IH (after (dispatch clk ev w))) as [H3 H4]; [lia|].
    rewrite tracked_count_app. split; [lia | congruence].
Qed.

(** X11.  Timer firings that publish nothing reset neither the counter
    nor the reference instant.  So the first map-data publication after
    construction logs the number of pairs tracked since construction
    divided by the seconds elapsed since construction. *)
Theorem first_estimate_spans_time_since_construction
    (p : Parameters) (engine : System) (evs : list Event) :
  let r := run clk evs (after (constructor clk p engine)) in
  count_outputs is_map_data (emitted r) = 0%nat ->
  isTracked_ (self (after r)) = true ->
  frequency_lines (emitted (publishMapData clk (after r))) =
    [PrimFloat.div (double_of_int (tracked_count (emitted r)))
       (duration_seconds (hr_clock clk (S (hr_reads (after r))) - hr_clock clk 0))].
Proof.
  intros r Hnone Hflag. subst r.
  set (wc := after (constructor clk p engine)) in *.
  destruct (run_count_until_publication evs wc Hnone) as [Hc Hk].
  change (frequency_tracker_count_ (self wc)) with 0 in Hc.
  change (frequency_tracker_clock_ (self wc)) with (hr_clock clk 0) in Hk.
  rewrite Z.add_0_l in Hc.
  rewrite (publishMapData_firing clk _ Hflag). cbn [emitted].
  rewrite Hc, Hk. reflexivity.
Qed.

Lemma track_all_cons (p : Image * Image) (pairs : list (Image * Image)) (s : System) :
  track_all (p :: pairs) s =
    track_all pairs (snd (trackStereo (fst p) (snd p) SE3f_default s)).
Proof. reflexivity. Qed.

Lemma dispatch_stereo_engine (l r : Image) (w : World) :
  publish_tf_ (self w) && no_odometry_mode_ (self w) = false ->
  interface_ (self (after (dispatch clk (StereoPair l r) w))) =
    snd (trackStereo l r SE3f_default (interface_ (self w))).
Proof.
  intros H. cbn [dispatch]. destruct (tracks l r w) eqn:Htr.
  - rewrite (StereoCallback_tracked _ _ _ Htr). cbn.
    unfold tracked_node. rewrite H. reflexivity.
  - rewrite (StereoCallback_untracked _ _ _ Htr). reflexivity.
Qed.

(** X12.  Unless the node is in direct mode with [publish_tf_] set, a
    sequence of synchronized pairs reaches the engine as one [trackStereo]
    call per pair, in arrival order, and nothing else: the engine after the
    run is the engine after those calls. *)
Theorem stereo_pairs_tracked_once_each_in_order
    (pairs : list (Image * Image)) (w : World) :
  publish_tf_ (self w) && no_odometry_mode_ (self w) = false ->
  interface_ (self (after (run clk (stereo_pairs pairs) w))) =
    track_all pairs (interface_ (self w)).
Proof.
  revert w. induction pairs as [|p pairs IH]; intros w H.
  - reflexivity.
  - unfold stereo_pairs. cbn [map]. fold (stereo_pairs pairs).
    rewrite run_cons. cbn [after].
    rewrite IH, dispatch_stereo_engine, track_all_cons; [reflexivity | exact H |].
    destruct (dispatch_parameters clk (StereoPair (fst p) (snd p)) w)
      as (_ & _ & Hm & Hp). congruence.
Qed.
End Orchestration.

(** ** The node run against the scripted engine *)

#[local] Existing Instance scripted_engine.

(** C1, as stated, fails.  The node is in composed mode with transform
    publication on.  An odometry sample is processed: nothing is sent to
    the broadcaster.  A tracked pair is processed, with no odometry sample
    in the same callback: the cached transform is broadcast. *)
Lemma odometry_sample_does_not_broadcast_tracking_does :
  no_odometry_mode_ (self composed_start) = false
  /\ publish_tf_ (self composed_start) = true
  /\ broadcasts (emitted (OdomCallback scripted_clocks scripted_odom composed_start)) = []
  /\ tracks pair_tracked pair_tracked composed_start = true
  /\ broadcasts (emitted (StereoCallback pair_tracked pair_tracked composed_start))
     = [TransformStamped_default].
Proof. vm_compute. repeat split; reflexivity. Qed.

Lemma composed_mode_witness :
  no_odometry_mode_ (self composed_start) = false
  /\ publish_tf_ (self composed_start) = true
  /\ tracks pair_tracked pair_tracked composed_start = true
  /\ tfMapOdom_ (self (after (OdomCallback scripted_clocks scripted_odom composed_start)))
     = scripted_tf scripted_odom "odom" TransformStamped_default
  /\ broadcasts (emitted (OdomCallback scripted_clocks scripted_odom composed_start)) = []
  /\ broadcasts (emitted (StereoCallback pair_tracked pair_tracked composed_start))
     = [TransformStamped_default].
Proof.
  destruct (@composed_mode_odometry_caches_tracking_broadcasts scripted_engine
              scripted_clocks composed_start scripted_odom pair_tracked pair_tracked
              eq_refl eq_refl) as [[H1 [H2 _]] H3].
  exact (conj eq_refl (conj eq_refl (conj eq_refl (conj H1 (conj H2 (H3 eq_refl)))))).
Defined.

(** C2, as stated, fails.  The first pair is tracked and sets the flag,
    but the engine's map is still empty; the landmark timer then fires and
    publishes nothing. *)
Lemma landmark_timer_silent_after_first_tracking :
  let w1 := after (StereoCallback pair_tracked_no_landmark pair_tracked_no_landmark
                     direct_start) in
  isTracked_ (self direct_start) = false
  /\ tracks pair_tracked_no_landmark pair_tracked_no_landmark direct_start = true
  /\ isTracked_ (self w1) = true
  /\ rosViz_ (self w1) = true
  /\ publications (emitted (dispatch scripted_clocks MapPointsTimer w1)) = [].
Proof. vm_compute. repeat split; reflexivity. Qed.

Lemma tracking_flag_gate_witness :
  let evs := [MapDataTimer; MapPointsTimer; StereoPair pair_lost pair_lost] in
  let w' := after (run scripted_clocks [@ImuSample scripted_engine scripted_odom]
                     (after (StereoCallback pair_tracked pair_tracked direct_start))) in
  isTracked_ (self (after (run scripted_clocks evs direct_start))) = false
  /\ tracks pair_tracked pair_tracked direct_start = true
  /\ gated (emitted (run scripted_clocks evs direct_start)) = []
  /\ publications (emitted (publishMapData scripted_clocks w'))
     = [publish_map_data (true, false, [], 2%nat)]
  /\ publications (emitted (publishMapPointCloud scripted_clocks w'))
     = [publish_map_points (scripted_cloud 2 PointCloud2_default)].
Proof.
  cbv zeta.
  destruct (@tracking_flag_gates_periodic_output scripted_engine scripted_clocks
              [MapDataTimer; MapPointsTimer; StereoPair pair_lost pair_lost]
              direct_start pair_tracked pair_tracked [@ImuSample scripted_engine scripted_odom])
    as [H1 H2].
  destruct (H2 eq_refl) as (_ & H3 & H4).
  exact (conj eq_refl (conj eq_refl (conj (H1 eq_refl) (conj H3 H4)))).
Defined.

Lemma untracked_pair_witness :
  let r := StereoCallback pair_lost pair_lost composed_start in
  tracks pair_lost pair_lost composed_start = false
  /\ self (after r) = self composed_start
  /\ isTracked_ (self (after r)) = false
  /\ frequency_tracker_count_ (self (after r)) = 0
  /\ tfMapOdom_ (self (after r)) = TransformStamped_default
  /\ broadcasts (emitted r) = []
  /\ publications (emitted r) = [].
Proof.
  cbv zeta.
  destruct (@untracked_pair_leaves_node_unchanged scripted_engine composed_start
              pair_lost pair_lost eq_refl) as (H1 & H2 & H3 & _ & H5 & H6 & H7).
  exact (conj eq_refl (conj H1 (conj H2 (conj H3 (conj H5 (conj H6 H7)))))).
Defined.

Lemma landmark_cloud_witness :
  let w_empty := after (StereoCallback pair_tracked_no_landmark pair_tracked_no_landmark
                          direct_start) in
  let w_full := after (StereoCallback pair_tracked pair_tracked direct_start) in
  isTracked_ (self w_empty) = true
  /\ isTracked_ (self w_full) = true
  /\ publications (emitted (publishMapPointCloud scripted_clocks w_empty)) = []
  /\ publications (emitted (publishMapPointCloud scripted_clocks w_full))
     = [publish_map_points (scripted_cloud 2 PointCloud2_default)].
Proof.
  cbv zeta.
  destruct (@landmark_cloud_published_iff_nonempty scripted_engine scripted_clocks
              (after (StereoCallback pair_tracked_no_landmark pair_tracked_no_landmark
                        direct_start)) eq_refl) as [H1 _].
  destruct (@landmark_cloud_published_iff_nonempty scripted_engine scripted_clocks
              (after (StereoCallback pair_tracked pair_tracked direct_start)) eq_refl)
    as [_ H2].
  refine (conj eq_refl (conj eq_refl (conj (proj1 (H1 eq_refl)) (H2 _)))).
  discriminate.
Defined.

Lemma frequency_counter_witness :
  let w := after (StereoCallback pair_tracked pair_tracked direct_start) in
  let evs := [StereoPair pair_tracked pair_tracked; StereoPair pair_lost pair_lost;
              @OdomSample scripted_engine scripted_odom;
              StereoPair pair_tracked pair_tracked; MapPointsTimer] in
  let r1 := publishMapData scripted_clocks w in
  let r2 := run scripted_clocks evs (after r1) in
  let r3 := publishMapData scripted_clocks (after r2) in
  isTracked_ (self w) = true
  /\ no_MapDataTimer evs = true
  /\ frequency_tracker_count_ (self (after r1)) = 0
  /\ frequency_lines (emitted r1)
     = [PrimFloat.div (double_of_int 1) (duration_seconds 2000000)]
  /\ frequency_tracker_count_ (self (after r2)) = 2
  /\ frequency_lines (emitted r3)
     = [PrimFloat.div (double_of_int 2) (duration_seconds 7000000)]
  /\ frequency_tracker_count_ (self (after r3)) = 0.
Proof.
  cbv zeta.
  destruct (@frequency_counter_reset_and_estimate scripted_engine scripted_clocks
              (after (StereoCallback pair_tracked pair_tracked direct_start))
              [StereoPair pair_tracked pair_tracked; StereoPair pair_lost pair_lost;
               @OdomSample scripted_engine scripted_odom;
               StereoPair pair_tracked pair_tracked; MapPointsTimer]
              eq_refl eq_refl) as (H1 & H2 & H3 & H4 & H5).
  exact (conj eq_refl (conj eq_refl (conj H1 (conj H2 (conj H3 (conj H4 H5)))))).
Defined.

Lemma odometry_discard_witness :
  let r_direct := OdomCallback scripted_clocks scripted_odom direct_start in
  let r_composed := OdomCallback scripted_clocks scripted_odom composed_start in
  no_odometry_mode_ (self direct_start) || negb (publish_tf_ (self direct_start)) = true
  /\ no_odometry_mode_ (self composed_start) || negb (publish_tf_ (self composed_start))
     = false
  /\ self (after r_direct) = self direct_start
  /\ emitted r_direct =
       [LogThrottled WARN 0
          [Str "Odometry msg recorded but no odometry mode is true, set to false to use this odometry"]]
  /\ self (after r_composed) =
       set_tfMapOdom_ (scripted_tf scripted_odom "odom" TransformStamped_default)
         (self composed_start)
  /\ spaced 4000 None (warn_stamps (emitted (run slow_clocks odom_burst direct_start)))
  /\ warn_stamps (emitted (run slow_clocks odom_burst direct_start)) = [0; 6000000000].
Proof.
  cbv zeta.
  destruct (@odometry_discarded_unless_composed scripted_engine scripted_clocks
              direct_start scripted_odom []) as (H1 & _ & _).
  destruct (@odometry_discarded_unless_composed scripted_engine scripted_clocks
              composed_start scripted_odom []) as (_ & H2 & _).
  destruct (@odometry_discarded_unless_composed scripted_engine slow_clocks
              direct_start scripted_odom odom_burst) as (_ & _ & H3).
  destruct (H1 eq_refl) as [H1a H1b].
  destruct (H2 eq_refl) as [H2a _].
  exact (conj eq_refl (conj eq_refl (conj H1a (conj H1b (conj H2a (conj H3 eq_refl)))))).
Defined.

Lemma cached_transform_witness :
  let quiet := [StereoPair pair_lost pair_lost; MapDataTimer;
                @ImuSample scripted_engine scripted_odom] in
  let w' := after (run scripted_clocks quiet
                     (after (OdomCallback scripted_clocks scripted_odom composed_start))) in
  let w0 := after (run scripted_clocks quiet
                     (after (constructor scripted_clocks composed_parameters []))) in
  no_odometry_mode_ (self composed_start) = false
  /\ publish_tf_ (self composed_start) = true
  /\ no_OdomSample quiet = true
  /\ tracks pair_tracked pair_tracked w' = true
  /\ tracks pair_tracked pair_tracked w0 = true
  /\ broadcasts (emitted (StereoCallback pair_tracked pair_tracked w'))
     = [scripted_tf scripted_odom "odom" TransformStamped_default]
  /\ broadcasts (emitted (StereoCallback pair_tracked pair_tracked w0))
     = [TransformStamped_default].
Proof.
  cbv zeta.
  destruct (@tracking_success_broadcasts_cached_transform scripted_engine scripted_clocks
              composed_start scripted_odom
              [StereoPair pair_lost pair_lost; MapDataTimer;
               @ImuSample scripted_engine scripted_odom]
              pair_tracked pair_tracked
              composed_parameters []
              [StereoPair pair_lost pair_lost; MapDataTimer;
               @ImuSample scripted_engine scripted_odom]
              pair_tracked pair_tracked) as [H1 H2].
  exact (conj eq_refl (conj eq_refl (conj eq_refl (conj eq_refl (conj eq_refl
           (conj (H1 eq_refl eq_refl eq_refl eq_refl)
                 (H2 eq_refl eq_refl eq_refl eq_refl))))))).
Defined.

(** The landmarks-in-view service on an empty map, before any tracking and
    with the global frame configured as "world": the answer is empty, and
    the empty cloud and the pose in frame "map" are published all the
    same. *)
Example landmarks_in_view_on_empty_map :
  let r := getMapPointsInViewServer scripted_clocks scripted_request
             {| map_points := [] |} composed_start in
  isTracked_ (self composed_start) = false
  /\ global_frame_ (self composed_start) = "world"
  /\ map_points (value r) = []
  /\ publications (emitted r) =
       [publish_visible_landmarks (scripted_cloud 0 PointCloud2_default);
        publish_visible_landmarks_pose
          {| ps_header := {| stamp := 0; frame_id := "map" |};
             ps_pose := liv_pose scripted_request |}].
Proof. vm_compute. repeat split; reflexivity. Qed.

(** The same service once two landmarks are in the map: one answer entry
    per landmark, each the converted position of its point. *)
Example landmarks_in_view_on_two_landmarks :
  let w := after (StereoCallback pair_tracked pair_tracked composed_start) in
  let r := getMapPointsInViewServer scripted_clocks scripted_request
             {| map_points := [] |} w in
  let landmark :=
    {| mp_position := {| p_x := 3%float; p_y := (-1)%float; p_z := (-2)%float |} |} in
  map_points (value r) = [landmark; landmark].
Proof. vm_compute. reflexivity. Qed.

(** The map-data service right after construction: the snapshot carries
    the request's own filters and an empty map. *)
Example map_query_before_tracking :
  let request := {| tracked_points := true; kf_id_for_landmarks := [3] |} in
  let r := getMapServer request {| gm_data := MapData_default |} direct_start in
  isTracked_ (self direct_start) = false
  /\ value r = {| gm_data := (false, true, [3], 0%nat) |}.
Proof. vm_compute. repeat split; reflexivity. Qed.

Lemma one_broadcast_per_tracked_pair_witness :
  publish_tf_ (self direct_start) = true
  /\ Z.of_nat (List.length (broadcasts (emitted (run scripted_clocks busy_run direct_start))))
     = tracked_count (emitted (run scripted_clocks busy_run direct_start))
  /\ tracked_count (emitted (run scripted_clocks busy_run direct_start)) = 2.
Proof.
  exact (conj eq_refl
           (conj (@one_broadcast_per_tracked_pair scripted_engine scripted_clocks
                    busy_run direct_start eq_refl)
                 eq_refl)).
Defined.

Lemma no_transform_when_publish_tf_off_witness :
  publish_tf_ (self silent_start) = false
  /\ tracked_count (emitted (run scripted_clocks busy_run silent_start)) = 2
  /\ broadcasts (emitted (run scripted_clocks busy_run silent_start)) = []
  /\ tfMapOdom_ (self (after (run scripted_clocks busy_run silent_start)))
     = TransformStamped_default.
Proof.
  exact (conj eq_refl
           (conj eq_refl
              (@no_transform_when_publish_tf_off scripted_engine scripted_clocks
                 busy_run silent_start eq_refl))).
Defined.

Lemma direct_mode_witness :
  let r := StereoCallback pair_tracked pair_tracked direct_start in
  let tf := scripted_tf (img_header pair_tracked) "base_link" TransformStamped_default in
  no_odometry_mode_ (self direct_start) = true
  /\ publish_tf_ (self direct_start) = true
  /\ tracks pair_tracked pair_tracked direct_start = true
  /\ broadcasts (emitted r) = [tf]
  /\ tfMapOdom_ (self (after r)) = tf
  /\ frequency_tracker_count_ (self (after r)) = 1.
Proof.
  cbv zeta.
  destruct (@direct_mode_tracked_pair_broadcasts_direct_transform scripted_engine
              direct_start pair_tracked pair_tracked eq_refl eq_refl eq_refl)
    as (H1 & H2 & _ & _ & H5).
  exact (conj eq_refl (conj eq_refl (conj eq_refl (conj H1 (conj H2 H5))))).
Defined.

Lemma cached_transform_writer_witness :
  no_odometry_mode_ (self composed_start) = false
  /\ no_OdomSample run_without_odometry = true
  /\ no_odometry_mode_ (self direct_start) = true
  /\ no_StereoPair run_without_pairs = true
  /\ tfMapOdom_ (self (after (run scripted_clocks run_without_odometry composed_start)))
     = TransformStamped_default
  /\ tfMapOdom_ (self (after (run scripted_clocks run_without_pairs direct_start)))
     = TransformStamped_default.
Proof.
  destruct (@cached_transform_has_one_writer_per_mode scripted_engine scripted_clocks
              run_without_odometry composed_start) as [H1 _].
  destruct (@cached_transform_has_one_writer_per_mode scripted_engine scripted_clocks
              run_without_pairs direct_start) as [_ H2].
  exact (conj eq_refl (conj eq_refl (conj eq_refl (conj eq_refl
           (conj (H1 eq_refl eq_refl) (H2 eq_refl eq_refl)))))).
Defined.

Lemma no_landmark_cloud_witness :
  rosViz_ (self silent_start) = false
  /\ isTracked_ (self (after (run scripted_clocks busy_run silent_start))) = true
  /\ count_outputs is_map_points (emitted (run scripted_clocks busy_run silent_start))
     = 0%nat.
Proof.
  exact (conj eq_refl
           (conj eq_refl
              (@no_landmark_cloud_without_ros_visualization scripted_engine
                 scripted_clocks busy_run silent_start eq_refl))).
Defined.

Lemma composed_mode_never_warns_witness :
  no_odometry_mode_ (self composed_start) = false
  /\ publish_tf_ (self composed_start) = true
  /\ warn_stamps (emitted (run slow_clocks odom_burst composed_start)) = []
  /\ throttle_last_logged (after (run slow_clocks odom_burst composed_start)) = None.
Proof.
  exact (conj eq_refl
           (conj eq_refl
              (@composed_mode_never_warns scripted_engine slow_clocks odom_burst
                 composed_start eq_refl eq_refl))).
Defined.

Lemma first_estimate_witness :
  let r := run scripted_clocks run_before_first_publication
             (after (constructor scripted_clocks Parameters_default [])) in
  count_outputs is_map_data (emitted r) = 0%nat
  /\ isTracked_ (self (after r)) = true
  /\ frequency_lines (emitted (publishMapData scripted_clocks (after r)))
     = [PrimFloat.div (double_of_int 2) (duration_seconds 6000000)].
Proof.
  cbv zeta.
  exact (conj eq_refl
           (conj eq_refl
              (@first_estimate_spans_time_since_construction scripted_engine
                 scripted_clocks Parameters_default [] run_before_first_publication
                 eq_refl eq_refl))).
Defined.

Lemma stereo_pairs_in_order_witness :
  publish_tf_ (self composed_start) && no_odometry_mode_ (self composed_start) = false
  /\ interface_ (self (after (run scripted_clocks (stereo_pairs three_pairs)
                                composed_start)))
     = repeat scripted_landmark 4.
Proof.
  exact (conj eq_refl
           (@stereo_pairs_tracked_once_each_in_order scripted_engine scripted_clocks
              three_pairs composed_start eq_refl)).
Defined.

(** The counter over a run with two tracked pairs on either side of a
    map-data publication. *)
Example counter_over_busy_run :
  let r := run scripted_clocks (busy_run ++ busy_run) direct_start in
  tracked_count (emitted r) = 4
  /\ count_outputs is_map_data (emitted r) = 2%nat
  /\ frequency_tracker_count_ (self (after r)) = 1.
Proof. vm_compute. repeat split; reflexivity. Qed.
